(** * tokenoptimizer: the configuration store, the API client and the
    command-line interface, embedded as Rocq functions.

    The three Python modules [config.py], [client.py] and [cli.py] are
    translated function by function.  Everything the code reads or writes
    outside itself (the environment variable, the configuration file, the
    standard streams, the remote service) is a field of an explicit [world]
    that every operation threads through; a Python exception and [sys.exit]
    are the two abnormal outcomes of an operation. *)

From Stdlib Require Import ZArith NArith List Bool Lia String Ascii.
From Stdlib Require Import Floats DecimalString.
Import ListNotations.

Set Warnings "-register-all,-inexact-float".

Local Open Scope Z_scope.

(** ** Python strings *)

(** A Python [str] is a sequence of Unicode code points. *)
Definition pystr : Type := list N.

(** An ASCII literal of the source, as a [pystr]. *)
Definition lit (s : string) : pystr :=
  List.map N_of_ascii (list_ascii_of_string s).

(** The line feed that [print] appends. *)
Definition nl : pystr := [10%N].

(** [str.isspace] on one code point: the table behind [str.strip()]
    (U+0009..U+000D, U+001C..U+0020, U+0085, U+00A0, U+1680,
    U+2000..U+200A, U+2028, U+2029, U+202F, U+205F, U+3000). *)
Definition isspace (c : N) : bool :=
  (((9 <=? c) && (c <=? 13)) || ((28 <=? c) && (c <=? 32))
   || (c =? 133) || (c =? 160) || (c =? 5760)
   || ((8192 <=? c) && (c <=? 8202))
   || (c =? 8232) || (c =? 8233) || (c =? 8239) || (c =? 8287)
   || (c =? 12288))%N.

(** [s.lstrip()]. *)
Fixpoint lstrip (s : pystr) : pystr :=
  match s with
  | [] => []
  | c :: rest => if isspace c then lstrip rest else s
  end.

(** [s.rstrip()]. *)
Definition rstrip (s : pystr) : pystr := rev (lstrip (rev s)).

(** [s.strip()]: leading and trailing whitespace removed. *)
Definition strip (s : pystr) : pystr := lstrip (rstrip s).

(** Truthiness of a string: [if s:] holds when [s] is not empty. *)
Definition truthy (s : pystr) : bool :=
  match s with [] => false | _ :: _ => true end.

(** Truthiness of [str | None]. *)
Definition truthy_opt (o : option pystr) : bool :=
  match o with Some s => truthy s | None => false end.

(** [sep.join(parts)]. *)
Fixpoint join (sep : pystr) (parts : list pystr) : pystr :=
  match parts with
  | [] => []
  | [p] => p
  | p :: rest => p ++ sep ++ join sep rest
  end.

(** [str(n)] for an [int]. *)
Definition str_of_int (n : Z) : pystr := lit (NilZero.string_of_int (Z.to_int n)).

(** Text mode reading translates ["\r\n"] and a lone ["\r"] to ["\n"]
    (universal newlines, the default of [open] and [Path.read_text]). *)
Fixpoint universal_newlines (s : pystr) : pystr :=
  match s with
  | [] => []
  | c :: rest =>
      if (c =? 13)%N
      then
        10%N :: match rest with
                | d :: rest' =>
                    if (d =? 10)%N then universal_newlines rest'
                    else universal_newlines rest
                | [] => []
                end
      else c :: universal_newlines rest
  end.

(** A lone surrogate (U+D800..U+DFFF) has no UTF-8 encoding: writing it to a
    text file or to standard output raises [UnicodeEncodeError]. *)
Definition is_surrogate (c : N) : bool := ((55296 <=? c) && (c <=? 57343))%N.

Definition encodable (s : pystr) : bool := forallb (fun c => negb (is_surrogate c)) s.

(** [str(n)] for a position in a string. *)
Definition str_of_nat (n : nat) : pystr :=
  lit (NilZero.string_of_uint (Nat.to_uint n)).

(** One lower-case hexadecimal digit, and the four of a code point. *)
Definition hex_digit (n : N) : N := (if n <? 10 then 48 + n else 87 + n)%N.

Definition hex4 (c : N) : pystr :=
  [ hex_digit ((c / 4096) mod 16); hex_digit ((c / 256) mod 16);
    hex_digit ((c / 16) mod 16); hex_digit (c mod 16) ]%N.

(** The characters before the first surrogate of a string, and the string
    from that surrogate on. *)
Fixpoint before_surrogate (s : pystr) : pystr * pystr :=
  match s with
  | [] => ([], [])
  | c :: rest =>
      if is_surrogate c then ([], s)
      else let (pre, post) := before_surrogate rest in (c :: pre, post)
  end.

(** The number of surrogates a string starts with. *)
Fixpoint surrogate_run (s : pystr) : nat :=
  match s with
  | c :: rest => if is_surrogate c then S (surrogate_run rest) else O
  | [] => O
  end.

(** The text of the [UnicodeEncodeError] that the UTF-8 encoder raises for a
    string with a surrogate: it names the first run of surrogates. *)
Definition surrogates_not_allowed (s : pystr) : pystr :=
  let (pre, post) := before_surrogate s in
  let start := List.length pre in
  match surrogate_run post with
  | S O =>
      lit "'utf-8' codec can't encode character '" ++ [92%N] ++ lit "u"
      ++ hex4 (List.hd 0%N post) ++ lit "' in position " ++ str_of_nat start
      ++ lit ": surrogates not allowed"
  | run =>
      lit "'utf-8' codec can't encode characters in position "
      ++ str_of_nat start ++ lit "-" ++ str_of_nat (start + run - 1)
      ++ lit ": surrogates not allowed"
  end.

(** [s == t] on strings. *)
Fixpoint str_eqb (s t : pystr) : bool :=
  match s, t with
  | [], [] => true
  | c :: s', d :: t' => (c =? d)%N && str_eqb s' t'
  | _, _ => false
  end.

(** ** Python values *)

(** The objects that [json.loads] produces and [json.dumps] accepts: [None]
    (JSON null), [bool], [int], [float], [str], [list] and [dict].  A [dict]
    is its list of items; a lookup takes the first item with the key. *)
Inductive pyval : Type :=
| PNone
| PBool (b : bool)
| PInt (n : Z)
| PFloat (x : float)
| PStr (s : pystr)
| PList (items : list pyval)
| PDict (items : list (pystr * pyval)).

Fixpoint lookup (key : pystr) (items : list (pystr * pyval)) : option pyval :=
  match items with
  | [] => None
  | (k, v) :: rest => if str_eqb key k then Some v else lookup key rest
  end.

(** ** Outcomes *)

(** The exceptions the three modules raise or let through.  The two Unicode
    errors are subclasses of [ValueError]; they carry the text that [str(e)]
    gives. *)
Inductive exn : Type :=
| ValueError (msg : pystr)
| AuthenticationError (msg : pystr)
| APIError (msg : pystr)
| KeyError (key : pystr)
| TypeError
| OverflowError
| ZeroDivisionError
| EOFError
| FileExistsError
| FileNotFoundError
| NotADirectoryError
| IsADirectoryError
| PermissionError
| UnicodeDecodeError (msg : pystr)
| UnicodeEncodeError (msg : pystr).

(** A computation that touches nothing outside returns a value or raises
    an exception. *)
Inductive result (A : Type) : Type :=
| Ok (a : A)
| Err (e : exn).

Arguments Ok {A} a.
Arguments Err {A} e.

Definition rbind {A B : Type} (r : result A) (k : A -> result B) : result B :=
  match r with
  | Ok a => k a
  | Err e => Err e
  end.

Notation "x <~ r ;; k" := (rbind r (fun x => k))
  (at level 61, r at next level, right associativity).

(** An operation on the world returns a value, raises an exception, or ends
    the process through [sys.exit(code)]. *)
Inductive outcome (A : Type) : Type :=
| Ret (a : A)
| Raise (e : exn)
| Exit (code : Z).

Arguments Ret {A} a.
Arguments Raise {A} e.
Arguments Exit {A} code.

(** ** Python arithmetic on the values of a response *)

(** The numbers among the values: [bool] is a subclass of [int]. *)
Inductive number : Type :=
| NInt (n : Z)
| NFloat (x : float).

Definition as_number (v : pyval) : option number :=
  match v with
  | PBool b => Some (NInt (if b then 1 else 0))
  | PInt n => Some (NInt n)
  | PFloat x => Some (NFloat x)
  | _ => None
  end.

(** An integer as an unrounded binary number. *)
Definition Z2SF (n : Z) : spec_float :=
  match n with
  | Z0 => S754_zero false
  | Zpos p => S754_finite false p 0
  | Zneg p => S754_finite true p 0
  end.

(** [float(n)]: the nearest double (ties to even), [OverflowError] when [n]
    is too large for one. *)
Definition float_of_int (n : Z) : result float :=
  let x := SF2Prim (binary_normalize prec emax n 0 false) in
  if is_infinity x then Err OverflowError else Ok x.

(** [a / b] on two [int]s: the quotient rounded once to the nearest double,
    [ZeroDivisionError] on a zero divisor, [OverflowError] when the quotient
    is too large for a double. *)
Definition int_truediv (a b : Z) : result float :=
  if b =? 0 then Err ZeroDivisionError
  else
    let q := SF2Prim (SFdiv prec emax (Z2SF a) (Z2SF b)) in
    if is_infinity q then Err OverflowError else Ok q.

Definition float_of_number (n : number) : result float :=
  match n with
  | NInt z => float_of_int z
  | NFloat x => Ok x
  end.

(** [a - b]. *)
Definition py_sub (a b : pyval) : result pyval :=
  match as_number a, as_number b with
  | Some (NInt x), Some (NInt y) => Ok (PInt (x - y))
  | Some x, Some y =>
      fx <~ float_of_number x ;;
      fy <~ float_of_number y ;;
      Ok (PFloat (fx - fy)%float)
  | _, _ => Err TypeError
  end.

(** [a / b] (true division). *)
Definition py_truediv (a b : pyval) : result float :=
  match as_number a, as_number b with
  | Some (NInt x), Some (NInt y) => int_truediv x y
  | Some x, Some y =>
      fx <~ float_of_number x ;;
      fy <~ float_of_number y ;;
      if (fy =? 0)%float then Err ZeroDivisionError else Ok (fx / fy)%float
  | _, _ => Err TypeError
  end.

(** [v == 0]. *)
Definition py_eq_zero (v : pyval) : bool :=
  match as_number v with
  | Some (NInt n) => n =? 0
  | Some (NFloat x) => (x =? 0)%float
  | None => false
  end.

(** ** client.py: the result of a compression *)

(** The dataclass [CompressionResult].  Its fields are filled from the
    response body as they come, with no check of their declared types
    ([str], [int], [int], [float]). *)
Record CompressionResult : Type := mkCompressionResult {
  output : pyval;
  output_tokens : pyval;
  original_input_tokens : pyval;
  compression_time : pyval
}.

(** Property [tokens_saved]. *)
Definition tokens_saved (self : CompressionResult) : result pyval :=
  py_sub (original_input_tokens self) (output_tokens self).

(** Property [compression_ratio]. *)
Definition compression_ratio (self : CompressionResult) : result float :=
  if py_eq_zero (original_input_tokens self) then Ok 0%float
  else
    q <~ py_truediv (output_tokens self) (original_input_tokens self) ;;
    Ok ((1 - q) * 100)%float.

(** ** The world outside the program *)

(** What the configuration file holds: bytes that decode to a text, or bytes
    that do not decode ([read_text] then raises [UnicodeDecodeError] with
    the given text). *)
Inductive contents : Type :=
| Text (s : pystr)
| Undecodable (reason : pystr).

(** What stands at the path of the configuration file, inside its directory:
    nothing, a regular file with its permission bits, or a directory. *)
Inductive node : Type :=
| NoEntry
| RegFile (data : contents) (mode : Z)
| SubDir.

(** What stands at the path of the configuration directory
    [~/.config/tokenoptimizer]:
    - nothing, where the directory can be made;
    - something that is not a directory;
    - the directory, with its [config] entry;
    - nothing, where the directory cannot be made: [mkdir] raises the given
      exception ([NotADirectoryError] when an ancestor is a file,
      [PermissionError] when the parent cannot be written);
    - the directory, which cannot be searched: it is there for [mkdir], and
      every access to an entry of it raises [PermissionError];
    - an ancestor that cannot be searched: every access to the path raises
      [PermissionError]. *)
Inductive dir_state : Type :=
| DirAbsent
| DirNotADirectory
| DirPresent (config : node)
| DirUncreatable (e : exn)
| DirUnsearchable
| DirUnreachable.

(** What an access to the file raises where the directory is missing and
    cannot be made: [NotADirectoryError] below a file, [FileNotFoundError]
    otherwise. *)
Definition absent_error (e : exn) : exn :=
  match e with
  | NotADirectoryError => NotADirectoryError
  | _ => FileNotFoundError
  end.

(** What [open(path, "r")] followed by [read()] gives for an input file. *)
Inductive file_read : Type :=
| FileText (s : pystr)
| FileNotFound
| FileIOError (detail : pystr)
| FileUndecodable (reason : pystr).

(** The request that [requests.post] sends. *)
Record request : Type := mkRequest {
  req_url : pystr;
  req_headers : list (pystr * pystr);
  req_json : pyval;
  req_timeout : Z
}.

(** The part of a [requests.Response] that the client reads: the status,
    the body as text, and what [response.json()] returns ([None] here when
    it raises because the body is no JSON document). *)
Record response : Type := mkResponse {
  status_code : Z;
  text : pystr;
  json : option pyval
}.

(** What [requests.post] does: raise one of the three exceptions the client
    handles, raise an exception that is no [RequestException] (a
    [ValueError] for a timeout that is not positive, a [UnicodeEncodeError]
    for a key that a header cannot carry, ...), or return a response. *)
Inductive transport : Type :=
| Timeout
| ConnectionError
| RequestException (detail : pystr)
| Responded (r : response)
| Raised (e : exn).

Record world : Type := mkWorld {
  home : pystr;                       (* Path.home() *)
  environ_key : option pystr;         (* os.environ.get(ENV_VAR_NAME) *)
  umask : Z;                          (* the process's file mode creation mask *)
  config_dir : dir_state;
  input_files : pystr -> file_read;
  stdin_isatty : bool;
  stdin : pystr;                      (* what is left to read *)
  stdout : pystr;
  stderr : pystr;
  server : request -> transport;
  sent : list request                 (* the calls of requests.post so far *)
}.

Definition set_config_dir (d : dir_state) (w : world) : world :=
  mkWorld (home w) (environ_key w) (umask w) d (input_files w)
          (stdin_isatty w) (stdin w) (stdout w) (stderr w) (server w) (sent w).

Definition set_stdin (s : pystr) (w : world) : world :=
  mkWorld (home w) (environ_key w) (umask w) (config_dir w) (input_files w)
          (stdin_isatty w) s (stdout w) (stderr w) (server w) (sent w).

Definition set_stdout (s : pystr) (w : world) : world :=
  mkWorld (home w) (environ_key w) (umask w) (config_dir w) (input_files w)
          (stdin_isatty w) (stdin w) s (stderr w) (server w) (sent w).

Definition set_stderr (s : pystr) (w : world) : world :=
  mkWorld (home w) (environ_key w) (umask w) (config_dir w) (input_files w)
          (stdin_isatty w) (stdin w) (stdout w) s (server w) (sent w).

Definition set_sent (l : list request) (w : world) : world :=
  mkWorld (home w) (environ_key w) (umask w) (config_dir w) (input_files w)
          (stdin_isatty w) (stdin w) (stdout w) (stderr w) (server w) l.

(** An operation of the program: a function of the world that gives an
    outcome and the world it leaves. *)
Definition M (A : Type) : Type := world -> outcome A * world.

Definition ret {A : Type} (a : A) : M A := fun w => (Ret a, w).

Definition raise {A : Type} (e : exn) : M A := fun w => (Raise e, w).

(** [sys.exit(code)]. *)
Definition sys_exit {A : Type} (code : Z) : M A := fun w => (Exit code, w).

Definition bind {A B : Type} (m : M A) (k : A -> M B) : M B :=
  fun w =>
    match m w with
    | (Ret a, w') => k a w'
    | (Raise e, w') => (Raise e, w')
    | (Exit c, w') => (Exit c, w')
    end.

(** [try: m except ...: handler]: an exception of [m] that a handler takes
    is replaced by what the handler does; the others, and [sys.exit], go
    through. *)
Definition try_except {A : Type} (m : M A) (handler : exn -> option (M A)) : M A :=
  fun w =>
    match m w with
    | (Raise e, w') =>
        match handler e with
        | Some k => k w'
        | None => (Raise e, w')
        end
    | other => other
    end.

(** A computation that touches nothing outside, as an operation. *)
Definition lift {A : Type} (r : result A) : M A :=
  fun w => (match r with Ok a => Ret a | Err e => Raise e end, w).

Notation "x <- m ;; k" := (bind m (fun x => k))
  (at level 61, m at next level, right associativity).
Notation "m ;;; k" := (bind m (fun _ => k))
  (at level 61, right associativity).

(** [print(s, end="", file=sys.stdout)] and [print(s, file=sys.stdout)].
    Standard output is a UTF-8 text stream with the strict error handler,
    as Python opens it under a UTF-8 locale: a text with a surrogate raises
    [UnicodeEncodeError] and nothing of it is written. *)
Definition write_stdout (s : pystr) : M unit :=
  fun w =>
    if encodable s then (Ret tt, set_stdout (stdout w ++ s) w)
    else (Raise (UnicodeEncodeError (surrogates_not_allowed s)), w).

Definition print (s : pystr) : M unit := write_stdout (s ++ nl).

(** The same on [sys.stderr], whose error handler escapes what it cannot
    encode and so never fails; the stream is kept as the text that was
    printed. *)
Definition write_stderr (s : pystr) : M unit :=
  fun w => (Ret tt, set_stderr (stderr w ++ s) w).

Definition eprint (s : pystr) : M unit := write_stderr (s ++ nl).

(** The first line of [s] without its line feed, and what follows it. *)
Fixpoint split_line (s : pystr) : pystr * pystr :=
  match s with
  | [] => ([], [])
  | c :: rest =>
      if (c =? 10)%N then ([], rest)
      else let (line, rest') := split_line rest in (c :: line, rest')
  end.

(** [input()]: one line of standard input without its line feed,
    [EOFError] at the end of the input. *)
Definition input : M pystr :=
  fun w =>
    match stdin w with
    | [] => (Raise EOFError, w)
    | _ :: _ => let (line, rest) := split_line (stdin w) in (Ret line, set_stdin rest w)
    end.

(** [sys.stdin.isatty()]. *)
Definition isatty : M bool := fun w => (Ret (stdin_isatty w), w).

(** [sys.stdin.read()]: all that is left of standard input. *)
Definition stdin_read : M pystr :=
  fun w => (Ret (stdin w), set_stdin [] w).

(** ** config.py *)

(** [CONFIG_DIR = Path.home() / ".config" / "tokenoptimizer"] and
    [CONFIG_FILE = CONFIG_DIR / "config"], as the text [str(path)] gives. *)
Definition CONFIG_DIR (w : world) : pystr := home w ++ lit "/.config/tokenoptimizer".

Definition CONFIG_FILE (w : world) : pystr := CONFIG_DIR w ++ lit "/config".

Definition ENV_VAR_NAME : pystr := lit "TOKENOPTIMIZER_API_KEY".

(** [get_config_path()]. *)
Definition get_config_path : M pystr := fun w => (Ret (CONFIG_FILE w), w).

(** [ensure_config_dir()]: [CONFIG_DIR.mkdir(parents=True, exist_ok=True)]
    creates the directory when it is missing, leaves an existing directory
    alone, also one that cannot be searched, raises [FileExistsError] when
    the path is no directory, and raises what the system reports when an
    ancestor is in the way. *)
Definition ensure_config_dir : M unit :=
  fun w =>
    match config_dir w with
    | DirAbsent => (Ret tt, set_config_dir (DirPresent NoEntry) w)
    | DirNotADirectory => (Raise FileExistsError, w)
    | DirPresent _ => (Ret tt, w)
    | DirUncreatable e => (Raise e, w)
    | DirUnsearchable => (Ret tt, w)
    | DirUnreachable => (Raise PermissionError, w)
    end.

(** Permission bits of the owner: read is [0o400], write is [0o200]. *)
Definition owner_can_read (mode : Z) : bool := Z.testbit mode 8.

Definition owner_can_write (mode : Z) : bool := Z.testbit mode 7.

(** [CONFIG_FILE.write_text(data)]: open for writing (the file is created
    with mode [0o666] less the umask, or emptied when it exists and its
    owner may write it), then encode and write [data]. *)
Definition write_text (data : pystr) : M unit :=
  fun w =>
    match config_dir w with
    | DirAbsent => (Raise FileNotFoundError, w)
    | DirUncreatable e => (Raise (absent_error e), w)
    | DirNotADirectory => (Raise NotADirectoryError, w)
    | DirUnsearchable | DirUnreachable => (Raise PermissionError, w)
    | DirPresent SubDir => (Raise IsADirectoryError, w)
    | DirPresent NoEntry =>
        let mode := Z.ldiff 438 (umask w) in
        if encodable data
        then (Ret tt, set_config_dir (DirPresent (RegFile (Text data) mode)) w)
        else (Raise (UnicodeEncodeError (surrogates_not_allowed data)),
              set_config_dir (DirPresent (RegFile (Text []) mode)) w)
    | DirPresent (RegFile _ mode) =>
        if owner_can_write mode
        then
          if encodable data
          then (Ret tt, set_config_dir (DirPresent (RegFile (Text data) mode)) w)
          else (Raise (UnicodeEncodeError (surrogates_not_allowed data)),
                set_config_dir (DirPresent (RegFile (Text []) mode)) w)
        else (Raise PermissionError, w)
    end.

(** [CONFIG_FILE.chmod(mode)]. *)
Definition chmod (mode : Z) : M unit :=
  fun w =>
    match config_dir w with
    | DirPresent (RegFile data _) =>
        (Ret tt, set_config_dir (DirPresent (RegFile data mode)) w)
    | DirPresent SubDir => (Ret tt, w)
    | DirPresent NoEntry | DirAbsent => (Raise FileNotFoundError, w)
    | DirUncreatable e => (Raise (absent_error e), w)
    | DirNotADirectory => (Raise NotADirectoryError, w)
    | DirUnsearchable | DirUnreachable => (Raise PermissionError, w)
    end.

(** [save_api_key(api_key)]. *)
Definition save_api_key (api_key : pystr) : M unit :=
  ensure_config_dir ;;;
  write_text (strip api_key) ;;;
  chmod 384.

(** [os.environ.get(ENV_VAR_NAME)]. *)
Definition environ_get : M (option pystr) := fun w => (Ret (environ_key w), w).

(** [ENV_VAR_NAME in os.environ]. *)
Definition environ_has : M bool :=
  fun w => (Ret (match environ_key w with Some _ => true | None => false end), w).

(** [CONFIG_FILE.exists()]: false for a path that is not there, also below
    something that is no directory; the [PermissionError] of a directory
    that cannot be searched is raised, not turned into [False]. *)
Definition config_exists : M bool :=
  fun w =>
    match config_dir w with
    | DirPresent (RegFile _ _) | DirPresent SubDir => (Ret true, w)
    | DirUnsearchable | DirUnreachable => (Raise PermissionError, w)
    | _ => (Ret false, w)
    end.

(** [CONFIG_FILE.read_text()]: open for reading, decode, and translate the
    line ends. *)
Definition read_text : M pystr :=
  fun w =>
    match config_dir w with
    | DirPresent (RegFile data mode) =>
        if owner_can_read mode
        then
          match data with
          | Text s => (Ret (universal_newlines s), w)
          | Undecodable reason => (Raise (UnicodeDecodeError reason), w)
          end
        else (Raise PermissionError, w)
    | DirPresent SubDir => (Raise IsADirectoryError, w)
    | DirPresent NoEntry | DirAbsent => (Raise FileNotFoundError, w)
    | DirUncreatable e => (Raise (absent_error e), w)
    | DirNotADirectory => (Raise NotADirectoryError, w)
    | DirUnsearchable | DirUnreachable => (Raise PermissionError, w)
    end.

(** [load_api_key()]. *)
Definition load_api_key : M (option pystr) :=
  env_key <- environ_get ;;
  if truthy_opt env_key then ret (option_map strip env_key)
  else
    found <- config_exists ;;
    if found then (s <- read_text ;; ret (Some (strip s)))
    else ret None.

(** [CONFIG_FILE.unlink()]. *)
Definition unlink : M unit :=
  fun w =>
    match config_dir w with
    | DirPresent (RegFile _ _) => (Ret tt, set_config_dir (DirPresent NoEntry) w)
    | DirPresent SubDir => (Raise IsADirectoryError, w)
    | DirPresent NoEntry | DirAbsent => (Raise FileNotFoundError, w)
    | DirUncreatable e => (Raise (absent_error e), w)
    | DirNotADirectory => (Raise NotADirectoryError, w)
    | DirUnsearchable | DirUnreachable => (Raise PermissionError, w)
    end.

(** [delete_api_key()]. *)
Definition delete_api_key : M bool :=
  found <- config_exists ;;
  if found then (unlink ;;; ret true)
  else ret false.

(** ** client.py: the client *)

Definition API_URL : pystr := lit "https://api.thetokencompany.com/v1/compress".

Definition DEFAULT_MODEL : pystr := lit "bear-1".

Definition DEFAULT_TIMEOUT : Z := 60.

Record TokenOptimizerClient : Type := mkClient {
  api_key : pystr;
  timeout : Z
}.

(** [requests.post(url, headers=..., json=..., timeout=...)]: the call is
    made, and what comes of it is decided outside the program, by the
    library (which refuses some arguments with an exception of its own),
    the transport and the service. *)
Definition requests_post (r : request) : M transport :=
  fun w => (Ret (server w r), set_sent (sent w ++ [r]) w).

(** [response.ok]: true unless [raise_for_status()] would raise, which it
    does for [400 <= status_code < 600]. *)
Definition ok (r : response) : bool :=
  negb ((400 <=? status_code r) && (status_code r <? 600)).

(** [d.get(key, default)]; [None] here when [d] is no [dict] and the call
    raises [AttributeError]. *)
Definition dict_get (d : pyval) (key : pystr) (default : pyval) : option pyval :=
  match d with
  | PDict items =>
      Some (match lookup key items with Some v => v | None => default end)
  | _ => None
  end.

(** [d[key]] for a string key: [KeyError] on a [dict] without the key,
    [TypeError] on any other value. *)
Definition getitem (d : pyval) (key : pystr) : result pyval :=
  match d with
  | PDict items =>
      match lookup key items with
      | Some v => Ok v
      | None => Err (KeyError key)
      end
  | _ => Err TypeError
  end.

(** An [int | None] argument as a value. *)
Definition of_optional_int (o : option Z) : pyval :=
  match o with Some n => PInt n | None => PNone end.

(** The chained comparison [0.0 <= a <= 1.0]. *)
Definition in_unit_interval (a : float) : bool := ((0 <=? a) && (a <=? 1))%float.

(** The [headers] and the [payload] of [compress], in the request that
    [requests.post] is called with. *)
Definition build_request (self : TokenOptimizerClient) (text_ : pystr)
    (aggressiveness : float) (max_output_tokens min_output_tokens : option Z)
    (model : pystr) : request :=
  let headers :=
    [ (lit "Content-Type", lit "application/json");
      (lit "Authorization", lit "Bearer " ++ api_key self) ] in
  let payload :=
    PDict
      [ (lit "model", PStr model);
        (lit "input", PStr text_);
        (lit "compression_settings",
          PDict
            [ (lit "aggressiveness", PFloat aggressiveness);
              (lit "max_output_tokens", of_optional_int max_output_tokens);
              (lit "min_output_tokens", of_optional_int min_output_tokens) ]) ] in
  mkRequest API_URL headers payload (timeout self).

Section Rendering.

(** How the Python runtime writes a [float] and quotes a [str] inside a
    container ([repr]), how it formats a [float] with a fixed number of
    decimals ([format(x, ".Nf")]), and the help text [argparse] builds for
    the [auth] parser. *)
Variable repr_float : float -> pystr.
Variable repr_str : pystr -> pystr.
Variable format_fixed : nat -> float -> pystr.
Variable auth_help : pystr.

(** How [json.dumps] writes a string (quoted, with its escapes). *)
Variable json_quote : pystr -> pystr.

(** [repr(v)]. *)
Fixpoint py_repr (v : pyval) : pystr :=
  match v with
  | PNone => lit "None"
  | PBool b => if b then lit "True" else lit "False"
  | PInt n => str_of_int n
  | PFloat x => repr_float x
  | PStr s => repr_str s
  | PList items => lit "[" ++ join (lit ", ") (List.map py_repr items) ++ lit "]"
  | PDict items =>
      lit "{"
      ++ join (lit ", ")
           (List.map (fun kv => match kv with
                                | (k, x) => repr_str k ++ lit ": " ++ py_repr x
                                end) items)
      ++ lit "}"
  end.

(** [str(v)], which is what an f-string field [{v}] shows. *)
Definition py_str (v : pyval) : pystr :=
  match v with
  | PStr s => s
  | _ => py_repr v
  end.

(** [json.dumps(v)], the body that [requests.post(..., json=v)] sends, for
    values whose floats are finite. *)
Fixpoint json_dumps (v : pyval) : pystr :=
  match v with
  | PNone => lit "null"
  | PBool b => if b then lit "true" else lit "false"
  | PInt n => str_of_int n
  | PFloat x => repr_float x
  | PStr s => json_quote s
  | PList items => lit "[" ++ join (lit ", ") (List.map json_dumps items) ++ lit "]"
  | PDict items =>
      lit "{"
      ++ join (lit ", ")
           (List.map (fun kv => match kv with
                                | (k, x) => json_quote k ++ lit ": " ++ json_dumps x
                                end) items)
      ++ lit "}"
  end.

(** The f-string field [{v:.Nf}]. *)
Definition py_format_f (digits : nat) (v : pyval) : result pystr :=
  match v with
  | PStr _ => Err (ValueError (lit "Unknown format code 'f' for object of type 'str'"))
  | _ =>
      match as_number v with
      | Some n => x <~ float_of_number n ;; Ok (format_fixed digits x)
      | None => Err TypeError
      end
  end.

(** [TokenOptimizerClient.compress]. *)
Definition compress (self : TokenOptimizerClient) (text_ : pystr)
    (aggressiveness : float) (max_output_tokens min_output_tokens : option Z)
    (model : pystr) : M CompressionResult :=
  if negb (in_unit_interval aggressiveness)
  then raise (ValueError (lit "Aggressiveness must be between 0.0 and 1.0"))
  else
    answer <- requests_post
                (build_request self text_ aggressiveness max_output_tokens
                   min_output_tokens model) ;;
    match answer with
    | Timeout => raise (APIError (lit "Request timed out"))
    | ConnectionError => raise (APIError (lit "Failed to connect to API"))
    | RequestException e => raise (APIError (lit "Request failed: " ++ e))
    | Raised e => raise e
    | Responded response =>
        if status_code response =? 401
        then raise (AuthenticationError (lit "Invalid API key"))
        else if status_code response =? 403
        then raise (AuthenticationError
                      (lit "API key does not have access to this resource"))
        else if negb (ok response)
        then
          let error_msg :=
            match json response with
            | None => PStr (text response)
            | Some error_data =>
                match dict_get error_data (lit "error") (PDict []) with
                | None => PStr (text response)
                | Some err =>
                    match dict_get err (lit "message") (PStr (text response)) with
                    | None => PStr (text response)
                    | Some message => message
                    end
                end
            end in
          raise (APIError (lit "API error (" ++ str_of_int (status_code response)
                           ++ lit "): " ++ py_str error_msg))
        else
          match json response with
          | None => raise (APIError (lit "Invalid JSON response from API"))
          | Some data =>
              lift (o <~ getitem data (lit "output") ;;
                    ot <~ getitem data (lit "output_tokens") ;;
                    it <~ getitem data (lit "original_input_tokens") ;;
                    ct <~ getitem data (lit "compression_time") ;;
                    Ok (mkCompressionResult o ot it ct))
          end
    end.

(** ** cli.py *)

(** [PRESETS]. *)
Definition PRESET_light : float := 0.2%float.
Definition PRESET_moderate : float := 0.5%float.
Definition PRESET_aggressive : float := 0.8%float.

(** [error(message)] with the default [code = 1]. *)
Definition error {A : Type} (message : pystr) : M A :=
  eprint (lit "error: " ++ message) ;;;
  sys_exit 1.

(** [print_stats(result, quiet)]. *)
Definition print_stats (result : CompressionResult) (quiet : bool) : M unit :=
  if quiet then ret tt
  else
    line <- lift (saved <~ tokens_saved result ;;
                  ratio <~ compression_ratio result ;;
                  time <~ py_format_f 2 (compression_time result) ;;
                  Ok (lit "[" ++ py_str (original_input_tokens result)
                       ++ lit " -> " ++ py_str (output_tokens result)
                       ++ lit " tokens (" ++ py_str saved ++ lit " saved, "
                       ++ format_fixed 1 ratio ++ lit "% reduction) in "
                       ++ time ++ lit "s]")) ;;
    eprint line.

(** The sub-actions of [auth], as the [auth] parser leaves them in
    [args.auth_action]; [set] comes with its optional [--key]. *)
Inductive auth_action : Type :=
| AuthSet (key : option pystr)
| AuthShow
| AuthDelete
| AuthPath.

(** [s[:n]] and [s[-n:]] for a positive [n]. *)
Definition slice_to (n : nat) (s : pystr) : pystr := firstn n s.

Definition slice_last (n : nat) (s : pystr) : pystr := skipn (List.length s - n) s.

Definition star : N := 42%N.

(** The masked display of a key in [auth show]. *)
Definition masked (key : pystr) : pystr :=
  if (8 <? List.length key)%nat
  then slice_to 4 key ++ repeat star (List.length key - 8) ++ slice_last 4 key
  else repeat star (List.length key).

(** [cmd_auth(args)]. *)
Definition cmd_auth (action : auth_action) : M Z :=
  match action with
  | AuthSet key =>
      k <- (if truthy_opt key
            then ret (match key with Some k => k | None => [] end)
            else
              write_stderr (lit "Enter your API key: ") ;;;
              line <- input ;;
              ret (strip line)) ;;
      (if negb (truthy k) then error (lit "API key cannot be empty") else ret tt) ;;;
      save_api_key k ;;;
      path <- get_config_path ;;
      eprint (lit "API key saved to " ++ path) ;;;
      ret 0
  | AuthShow =>
      k <- load_api_key ;;
      (if truthy_opt k
       then
         print (lit "API key: " ++ masked (match k with Some s => s | None => [] end)) ;;;
         from_env <- environ_has ;;
         print (lit "Source: "
                ++ (if from_env then lit "environment" else lit "config file"))
       else
         print (lit "No API key configured") ;;;
         print (lit "Set one with: tokenoptimizer auth set") ;;;
         print (lit "Or set " ++ ENV_VAR_NAME ++ lit " environment variable")) ;;;
      ret 0
  | AuthDelete =>
      deleted <- delete_api_key ;;
      (if deleted then eprint (lit "API key deleted")
       else eprint (lit "No stored API key found")) ;;;
      ret 0
  | AuthPath =>
      path <- get_config_path ;;
      print path ;;;
      ret 0
  end.

(** The namespace that the optimize parser leaves. *)
Record optimize_args : Type := mkArgs {
  prompt : list pystr;
  file : option pystr;
  arg_aggressiveness : float;
  light : bool;
  moderate : bool;
  aggressive : bool;
  max_tokens : option Z;
  min_tokens : option Z;
  quiet : bool;
  stats_only : bool;
  arg_timeout : Z
}.

(** [open(path, "r")] and [f.read()]. *)
Definition open_read (path : pystr) : M file_read :=
  fun w => (Ret (input_files w path), w).

(** [cmd_optimize(args)]. *)
Definition cmd_optimize (args : optimize_args) : M Z :=
  k <- load_api_key ;;
  (if negb (truthy_opt k)
   then error (lit "No API key configured. Run 'tokenoptimizer auth set' or set "
               ++ ENV_VAR_NAME)
   else ret tt) ;;;
  txt <- (match prompt args with
          | _ :: _ => ret (join (lit " ") (prompt args))
          | [] =>
              if truthy_opt (file args)
              then
                let path := match file args with Some p => p | None => [] end in
                r <- open_read path ;;
                match r with
                | FileText s => ret s
                | FileNotFound => error (lit "File not found: " ++ path)
                | FileIOError e => error (lit "Failed to read file: " ++ e)
                | FileUndecodable reason => raise (UnicodeDecodeError reason)
                end
              else
                tty <- isatty ;;
                if negb tty then stdin_read
                else error (lit "No input provided. Use --prompt, --file, or pipe via stdin")
          end) ;;
  (if negb (truthy (strip txt)) then error (lit "Input text is empty") else ret tt) ;;;
  let aggressiveness :=
    if light args then PRESET_light
    else if moderate args then PRESET_moderate
    else if aggressive args then PRESET_aggressive
    else arg_aggressiveness args in
  let client := mkClient (match k with Some s => s | None => [] end) (arg_timeout args) in
  result <- try_except
              (compress client txt aggressiveness (max_tokens args)
                 (min_tokens args) DEFAULT_MODEL)
              (fun e =>
                 match e with
                 | AuthenticationError msg =>
                     Some (error (lit "Authentication failed: " ++ msg))
                 | APIError msg => Some (error msg)
                 | ValueError msg
                 | UnicodeDecodeError msg
                 | UnicodeEncodeError msg => Some (error msg)
                 | _ => None
                 end) ;;
  (if stats_only args
   then
     print (lit "Original tokens: " ++ py_str (original_input_tokens result)) ;;;
     print (lit "Output tokens: " ++ py_str (output_tokens result)) ;;;
     saved <- lift (tokens_saved result) ;;
     print (lit "Tokens saved: " ++ py_str saved) ;;;
     ratio <- lift (compression_ratio result) ;;
     print (lit "Compression ratio: " ++ format_fixed 1 ratio ++ lit "%") ;;;
     time <- lift (py_format_f 2 (compression_time result)) ;;
     print (lit "Compression time: " ++ time ++ lit "s")
   else
     print_stats result (quiet args) ;;;
     print (py_str (output result))) ;;;
  ret 0.

(** What [sys.argv] selects, once [parse_args] has run: [auth] with the
    sub-action its parser found (none when no sub-action was given), the
    optimize command with its parsed arguments, a request for information
    ([--help], [--version]) with the text that [argparse] prints for it, or
    arguments that the parser refuses, with the usage text and the message
    that [argparse] prints for them. *)
Inductive invocation : Type :=
| InvAuth (action : option auth_action)
| InvOptimize (args : optimize_args)
| InvInfo (text : pystr)
| InvUsageError (text : pystr).

(** [main()].  [parse_args] leaves through [sys.exit]: with the code 0 after
    it has printed the help or the version on the standard output, with the
    code 2 after it has printed the usage and the error on the standard
    error. *)
Definition main (inv : invocation) : M Z :=
  match inv with
  | InvAuth None => write_stdout auth_help ;;; ret 1
  | InvAuth (Some action) => cmd_auth action
  | InvOptimize args => cmd_optimize args
  | InvInfo text => write_stdout text ;;; sys_exit 0
  | InvUsageError text => write_stderr text ;;; sys_exit 2
  end.



(** * The vocabulary of the properties *)

(** A string with no whitespace at either end. *)
Definition trimmed (s : pystr) : Prop :=
  lstrip s = s /\ lstrip (rev s) = rev s.

(** The text that [read_text] can return: the configuration file is a
    regular file that its owner may read and that decodes. *)
Definition stored_text (w : world) : option pystr :=
  match config_dir w with
  | DirPresent (RegFile (Text s) mode) =>
      if owner_can_read mode then Some s else None
  | _ => None
  end.

(** Case analysis on what the configuration store reads. *)
Ltac store_cases w :=
  cbv beta;
  destruct (environ_key w) as [[|? ?]|] eqn:?;
  simpl;
  destruct (config_dir w) as [| |[|[?|?] ?|]|?| |] eqn:?;
  simpl;
  repeat match goal with
         | H : config_dir w = _ |- context [config_dir w] => rewrite H; simpl
         end;
  repeat match goal with
         | |- context [owner_can_read ?m] => destruct (owner_can_read m)
         | H : context [owner_can_read ?m] |- _ => destruct (owner_can_read m)
         end.

(** The store can take a new credential: the directory is missing or
    present, and the file is missing or a regular file its owner may
    write. *)
Definition writable_store (w : world) : bool :=
  match config_dir w with
  | DirAbsent | DirPresent NoEntry => true
  | DirPresent (RegFile _ mode) => owner_can_write mode
  | DirNotADirectory | DirPresent SubDir => false
  | DirUncreatable _ | DirUnsearchable | DirUnreachable => false
  end.


(** The message of an error response as the specification words it: the
    field [error.message] of the body when the body is a JSON object that
    has it, the raw text of the body otherwise. *)
Definition error_message (r : response) : pystr :=
  match json r with
  | Some (PDict top) =>
      match lookup (lit "error") top with
      | Some (PDict err) =>
          match lookup (lit "message") err with
          | Some message => py_str message
          | None => text r
          end
      | _ => text r
      end
  | _ => text r
  end.

(** The parsing of a success body: [APIError] when the body is no JSON,
    otherwise the four fields read by subscript. *)
Definition parse_success (r : response) : outcome CompressionResult :=
  match json r with
  | None => Raise (APIError (lit "Invalid JSON response from API"))
  | Some data =>
      match (o <~ getitem data (lit "output") ;;
             ot <~ getitem data (lit "output_tokens") ;;
             it <~ getitem data (lit "original_input_tokens") ;;
             ct <~ getitem data (lit "compression_time") ;;
             Ok (mkCompressionResult o ot it ct)) with
      | Ok result => Ret result
      | Err e => Raise e
      end
  end.

(** What [compress] makes of the answer to its request. *)
Definition answer_outcome (t : transport) : outcome CompressionResult :=
  match t with
  | Timeout => Raise (APIError (lit "Request timed out"))
  | ConnectionError => Raise (APIError (lit "Failed to connect to API"))
  | RequestException e => Raise (APIError (lit "Request failed: " ++ e))
  | Raised e => Raise e
  | Responded r =>
      if status_code r =? 401
      then Raise (AuthenticationError (lit "Invalid API key"))
      else if status_code r =? 403
      then Raise (AuthenticationError
                    (lit "API key does not have access to this resource"))
      else if (400 <=? status_code r) && (status_code r <? 600)
      then Raise (APIError (lit "API error (" ++ str_of_int (status_code r)
                            ++ lit "): " ++ error_message r))
      else parse_success r
  end.

(** An operation never ends the process. *)
Definition no_exit {A : Type} (m : M A) : Prop :=
  forall w c, fst (m w) <> Exit c.

(** What [auth set] writes to standard error before it can fail: the prompt,
    when no key came with [--key]. *)
Definition prompt_of (inv : invocation) : pystr :=
  match inv with
  | InvAuth (Some (AuthSet key)) =>
      if truthy_opt key then [] else lit "Enter your API key: "
  | _ => []
  end.


(** A first run on a terminal: no environment variable, no configuration
    directory yet, umask [0o022], nothing typed, and a service that does
    not answer in time. *)
Definition first_run : world :=
  mkWorld (lit "/home/user") None 18 DirAbsent (fun _ => FileNotFound)
          true [] [] [] (fun _ => Timeout) [].


(** The same run with something at the path of the configuration file. *)
Definition with_config (n : node) : world :=
  set_config_dir (DirPresent n) first_run.

(** The same run with the environment variable set. *)
Definition with_environ (value : pystr) (w : world) : world :=
  mkWorld (home w) (Some value) (umask w) (config_dir w) (input_files w)
          (stdin_isatty w) (stdin w) (stdout w) (stderr w) (server w) (sent w).

(** The same run against a service that answers every request with [r]. *)
Definition answering (r : response) : world :=
  mkWorld (lit "/home/user") None 18 DirAbsent (fun _ => FileNotFound)
          true [] [] [] (fun _ => Responded r) [].

(** The double quote. *)
Definition dq : pystr := [34%N].

(** A 500 answer whose body is the JSON object with [error.message] set to
    "overloaded". *)
Definition overloaded : response :=
  mkResponse 500
    (lit "{" ++ dq ++ lit "error" ++ dq ++ lit ":{" ++ dq ++ lit "message" ++ dq
     ++ lit ":" ++ dq ++ lit "overloaded" ++ dq ++ lit "}}")
    (Some (PDict [(lit "error", PDict [(lit "message", PStr (lit "overloaded"))])])).

(** The four fields of a success body. *)
Definition success_body : pyval :=
  PDict [ (lit "output", PStr (lit "Hi, test."));
          (lit "output_tokens", PInt 3);
          (lit "original_input_tokens", PInt 8);
          (lit "compression_time", PFloat 0.42) ].

(** A 304 answer that carries a success body, and one with an empty body. *)
Definition not_modified_with_body : response :=
  mkResponse 304 (lit "(the body)") (Some success_body).

Definition not_modified_empty : response := mkResponse 304 [] None.

(** A client and the arguments of the closed examples. *)
Definition sample_client : TokenOptimizerClient := mkClient (lit "sk-test") 60.

Definition sample_text : pystr := lit "Hello world, this is a test.".

(** A key with a carriage return inside: "a", CR, "b". *)
Definition key_with_cr : pystr := [97%N; 13%N; 98%N].

(** Stand-ins for the renderings of the runtime in the closed examples, none
    of which depends on how a float is written or a string quoted. *)
Definition sample_repr_float (x : float) : pystr := lit "<float>".

Definition sample_repr_str (s : pystr) : pystr := [39%N] ++ s ++ [39%N].

Definition sample_format_fixed (digits : nat) (x : float) : pystr := lit "<float>".

Definition sample_json_quote (s : pystr) : pystr := dq ++ s ++ dq.

Definition sample_help : pystr := lit "usage: tokenoptimizer auth [-h] action ...".

Definition sample_args : optimize_args :=
  mkArgs [sample_text] None 0.5 false false false None None false false 60.


(** The value of a key in the items of a [dict], for a key that is there. *)
Definition field (items : list (pystr * pyval)) (key : pystr) : pyval :=
  match lookup key items with
  | Some v => v
  | None => PNone
  end.

(** The first of the four keys of a success body that the items lack, in
    the order in which [compress] reads them. *)
Definition first_missing (items : list (pystr * pyval)) : option pystr :=
  find (fun key => match lookup key items with None => true | Some _ => false end)
       [ lit "output"; lit "output_tokens"; lit "original_input_tokens";
         lit "compression_time" ].

(** A service that fails every request in the given way. *)
Definition failing (t : transport) : world :=
  mkWorld (lit "/home/user") None 18 DirAbsent (fun _ => FileNotFound)
          true [] [] [] (fun _ => t) [].

(** A 200 answer with the given parsed body. *)
Definition success_with (body : pyval) : response :=
  mkResponse 200 (lit "(the body)") (Some body).


(** The aggressiveness that [cmd_optimize] sends: a preset flag, in the
    order light, moderate, aggressive, or else the numeric argument. *)
Definition resolved_aggressiveness (args : optimize_args) : float :=
  if light args then PRESET_light
  else if moderate args then PRESET_moderate
  else if aggressive args then PRESET_aggressive
  else arg_aggressiveness args.

(** The arguments with no preset flag and the given numeric level. *)
Definition with_level (a : float) (args : optimize_args) : optimize_args :=
  mkArgs (prompt args) (file args) a false false false (max_tokens args)
         (min_tokens args) (quiet args) (stats_only args) (arg_timeout args).

(** The call that [cmd_optimize] makes with the key [k] and the text [txt],
    and the request of that call. *)
Definition call_of (args : optimize_args) (k txt : pystr) : M CompressionResult :=
  compress (mkClient k (arg_timeout args)) txt (resolved_aggressiveness args)
           (max_tokens args) (min_tokens args) DEFAULT_MODEL.

Definition request_of (args : optimize_args) (k txt : pystr) : request :=
  build_request (mkClient k (arg_timeout args)) txt (resolved_aggressiveness args)
                (max_tokens args) (min_tokens args) DEFAULT_MODEL.

(** The block of [cmd_optimize] that gathers the input text. *)
Definition read_input (args : optimize_args) : M pystr :=
  match prompt args with
  | _ :: _ => ret (join (lit " ") (prompt args))
  | [] =>
      if truthy_opt (file args)
      then
        let path := match file args with Some p => p | None => [] end in
        r <- open_read path ;;
        match r with
        | FileText s => ret s
        | FileNotFound => error (lit "File not found: " ++ path)
        | FileIOError e => error (lit "Failed to read file: " ++ e)
        | FileUndecodable reason => raise (UnicodeDecodeError reason)
        end
      else
        tty <- isatty ;;
        if negb tty then stdin_read
        else error (lit "No input provided. Use --prompt, --file, or pipe via stdin")
  end.

(** The [except] clauses of [cmd_optimize]. *)
Definition handlers (e : exn) : option (M CompressionResult) :=
  match e with
  | AuthenticationError msg => Some (error (lit "Authentication failed: " ++ msg))
  | APIError msg => Some (error msg)
  | ValueError msg
  | UnicodeDecodeError msg
  | UnicodeEncodeError msg => Some (error msg)
  | _ => None
  end.

(** The block of [cmd_optimize] that prints a result. *)
Definition render (args : optimize_args) (result : CompressionResult) : M unit :=
  if stats_only args
  then
    print (lit "Original tokens: " ++ py_str (original_input_tokens result)) ;;;
    print (lit "Output tokens: " ++ py_str (output_tokens result)) ;;;
    saved <- lift (tokens_saved result) ;;
    print (lit "Tokens saved: " ++ py_str saved) ;;;
    ratio <- lift (compression_ratio result) ;;
    print (lit "Compression ratio: " ++ format_fixed 1 ratio ++ lit "%") ;;;
    time <- lift (py_format_f 2 (compression_time result)) ;;
    print (lit "Compression time: " ++ time ++ lit "s")
  else
    print_stats result (quiet args) ;;;
    print (py_str (output result)).

(** The number of line ends in a text. *)
Definition line_ends (s : pystr) : nat := List.length (filter (N.eqb 10) s).

(** The messages that an invocation can hand to [error] in a world: the
    fixed ones, the two that name the input file or its failure, and the
    message of an exception of the call of [compress] that an [except]
    clause of [cmd_optimize] takes. *)
Definition fatal_message (inv : invocation) (w : world) (msg : pystr) : Prop :=
  match inv with
  | InvAuth (Some (AuthSet _)) => msg = lit "API key cannot be empty"
  | InvOptimize args =>
      msg = lit "No API key configured. Run 'tokenoptimizer auth set' or set TOKENOPTIMIZER_API_KEY"
      \/ msg = lit "No input provided. Use --prompt, --file, or pipe via stdin"
      \/ msg = lit "Input text is empty"
      \/ (exists path,
            file args = Some path /\ input_files w path = FileNotFound
            /\ msg = lit "File not found: " ++ path)
      \/ (exists path detail,
            file args = Some path /\ input_files w path = FileIOError detail
            /\ msg = lit "Failed to read file: " ++ detail)
      \/ (exists k txt w1 e,
            load_api_key w = (Ret (Some k), w)
            /\ read_input args w = (Ret txt, w1)
            /\ fst (call_of args k txt w1) = Raise e
            /\ match e with
               | AuthenticationError m => msg = lit "Authentication failed: " ++ m
               | APIError m | ValueError m
               | UnicodeDecodeError m | UnicodeEncodeError m => msg = m
               | _ => False
               end)
  | _ => False
  end.

(** An operation that changes nothing but the two output streams. *)
Definition only_streams {A : Type} (m : M A) : Prop :=
  forall w, exists out err, snd (m w) = set_stderr err (set_stdout out w).


(** A run with the credential in the environment variable. *)
Definition sample_key : pystr := lit "sk-test-key".

Definition keyed (w : world) : world := with_environ sample_key w.


(** The arguments of a run whose prompt is one space. *)
Definition blank_args : optimize_args :=
  mkArgs [lit " "] None 0.5 false false false None None false false 60.

(** A 401 answer, and a 200 answer whose body is the empty JSON object. *)
Definition unauthorized : response := mkResponse 401 [] None.

Definition empty_object : response := success_with (PDict []).

(** The result that [success_body] gives. *)
Definition sample_result : CompressionResult :=
  mkCompressionResult (PStr (lit "Hi, test.")) (PInt 3) (PInt 8) (PFloat 0.42).


(** A 502 answer of a proxy, whose body is a page of three lines. *)
Definition bad_gateway : response :=
  mkResponse 502
    (lit "<html>" ++ nl ++ lit "<body>Bad Gateway</body>" ++ nl ++ lit "</html>")
    None.

(** What [argparse] prints for [tokenoptimizer -a abc] (the usage line
    shortened). *)
Definition sample_usage_error : pystr :=
  lit "usage: tokenoptimizer [-h] [--version] [--file FILE] [prompt ...]" ++ nl
  ++ lit "tokenoptimizer: error: argument --aggressiveness/-a: invalid float value: 'abc'"
  ++ nl.

(** The text of the [ValueError] with which the library refuses a timeout
    of zero. *)
Definition timeout_refused : pystr :=
  lit "Attempted to set connect timeout to 0, but the timeout cannot be set to a value less than or equal to 0.".

(** A run whose configuration directory is there and cannot be searched. *)
Definition unsearchable : world := set_config_dir DirUnsearchable first_run.

(** The text of a decoding failure. *)
Definition invalid_start_byte : pystr :=
  lit "'utf-8' codec can't decode byte 0xff in position 0: invalid start byte".

(** A run with the text piped in: no prompt words, no file, and a standard
    input that is no terminal. *)
Definition piped_args : optimize_args :=
  mkArgs [] None 0.5 false false false None None false false 60.

Definition piped (s : pystr) (w : world) : world :=
  mkWorld (home w) (environ_key w) (umask w) (config_dir w) (input_files w)
          false s (stdout w) (stderr w) (server w) (sent w).

(** The world after [auth set --key] has saved a key on a first run. *)
Definition after_auth_set (saved : pystr) : world :=
  set_stderr (lit "API key saved to /home/user/.config/tokenoptimizer/config" ++ nl)
    (with_config (RegFile (Text saved) 384)).

(** An operation that leaves the configuration store and the environment
    as they are. *)
Definition keeps_store {A : Type} (m : M A) : Prop :=
  forall w, config_dir (snd (m w)) = config_dir w
            /\ environ_key (snd (m w)) = environ_key w.


(** An operation that leaves the environment as it is. *)
Definition keeps_environ {A : Type} (m : M A) : Prop :=
  forall w, environ_key (snd (m w)) = environ_key w.

(** * Properties *)

(** ** Strings *)

Lemma lstrip_all_space (s : pystr) :
  forallb isspace s = true -> lstrip s = [].
Proof.
  induction s as [|c s IH]; simpl; [reflexivity|].
  intros H. apply andb_prop in H. destruct H as [Hc Hs].
  rewrite Hc. exact (IH Hs).
Qed.

Lemma forallb_rev {A : Type} (f : A -> bool) (l : list A) :
  forallb f (rev l) = forallb f l.
Proof.
  induction l as [|a l IH]; simpl; [reflexivity|].
  rewrite forallb_app, IH. simpl. rewrite andb_true_r. apply andb_comm.
Qed.

Lemma strip_all_space (s : pystr) :
  forallb isspace s = true -> strip s = [].
Proof.
  intros H. unfold strip, rstrip.
  rewrite (lstrip_all_space (rev s)) by (rewrite forallb_rev; exact H).
  reflexivity.
Qed.

Lemma lstrip_length (s : pystr) : (List.length (lstrip s) <= List.length s)%nat.
Proof.
  induction s as [|c s IH]; simpl; [lia|].
  destruct (isspace c); simpl; lia.
Qed.

Lemma lstrip_fixed_head (c : N) (s : pystr) :
  lstrip (c :: s) = c :: s -> isspace c = false.
Proof.
  simpl. destruct (isspace c); [|reflexivity].
  intros H. pose proof (lstrip_length s) as L. rewrite H in L. simpl in L. lia.
Qed.

Lemma lstrip_idem (s : pystr) : lstrip (lstrip s) = lstrip s.
Proof.
  induction s as [|c s IH]; simpl; [reflexivity|].
  destruct (isspace c) eqn:E; [exact IH|].
  simpl. rewrite E. reflexivity.
Qed.

(** [lstrip] removes a prefix. *)
Lemma lstrip_suffix (s : pystr) : exists pre, s = pre ++ lstrip s.
Proof.
  induction s as [|c s [pre IH]]; simpl.
  - exists []. reflexivity.
  - destruct (isspace c).
    + exists (c :: pre). simpl. f_equal. exact IH.
    + exists []. reflexivity.
Qed.

Lemma lstrip_keeps_trimmed_end (s : pystr) :
  lstrip (rev s) = rev s -> lstrip (rev (lstrip s)) = rev (lstrip s).
Proof.
  intros H. destruct (lstrip_suffix s) as [pre E].
  destruct (rev (lstrip s)) as [|c r] eqn:R; [reflexivity|].
  rewrite E, rev_app_distr, R in H. simpl in H.
  simpl. destruct (isspace c) eqn:Ec; [|reflexivity].
  exfalso.
  pose proof (lstrip_length (r ++ rev pre)) as L.
  rewrite H in L. simpl in L. lia.
Qed.

Lemma strip_trimmed (s : pystr) : trimmed (strip s).
Proof.
  unfold trimmed, strip. split.
  - apply lstrip_idem.
  - apply lstrip_keeps_trimmed_end.
    unfold rstrip. rewrite rev_involutive. apply lstrip_idem.
Qed.

Lemma trimmed_strip (s : pystr) : trimmed s -> strip s = s.
Proof.
  intros [Hl Hr]. unfold strip, rstrip.
  rewrite Hr, rev_involutive. exact Hl.
Qed.

Lemma strip_idem (s : pystr) : strip (strip s) = strip s.
Proof. apply trimmed_strip, strip_trimmed. Qed.

Lemma universal_newlines_no_cr (s : pystr) :
  ~ In 13%N s -> universal_newlines s = s.
Proof.
  induction s as [|c s IH]; simpl; [reflexivity|].
  intros H. destruct (N.eqb_spec c 13) as [E|E].
  - exfalso. apply H. left. exact E.
  - f_equal. apply IH. intros Hin. apply H. right. exact Hin.
Qed.

Lemma isspace_cr : isspace 13 = true.
Proof. reflexivity. Qed.

Lemma isspace_lf : isspace 10 = true.
Proof. reflexivity. Qed.

Lemma last_cons_nonempty (c d : N) (t : pystr) :
  t <> [] -> last (c :: t) d = last t d.
Proof. destruct t; [contradiction | reflexivity]. Qed.

Lemma universal_newlines_cr_lf (s : pystr) :
  universal_newlines (13%N :: 10%N :: s) = 10%N :: universal_newlines s.
Proof. reflexivity. Qed.

Lemma universal_newlines_cr (e : N) (s : pystr) :
  e <> 10%N ->
  universal_newlines (13%N :: e :: s) = 10%N :: universal_newlines (e :: s).
Proof.
  intros He. change (universal_newlines (13%N :: e :: s))
    with (10%N :: (if (e =? 10)%N then universal_newlines s
                   else universal_newlines (e :: s))).
  destruct (N.eqb_spec e 10); [contradiction | reflexivity].
Qed.

Lemma universal_newlines_other (c : N) (s : pystr) :
  c <> 13%N -> universal_newlines (c :: s) = c :: universal_newlines s.
Proof.
  intros Hc. change (universal_newlines (c :: s))
    with (if (c =? 13)%N
          then 10%N :: match s with
                       | d :: rest' =>
                           if (d =? 10)%N then universal_newlines rest'
                           else universal_newlines s
                       | [] => []
                       end
          else c :: universal_newlines s).
  destruct (N.eqb_spec c 13); [contradiction | reflexivity].
Qed.

(** Translating the line ends keeps the last character when it is no
    whitespace. *)
Lemma universal_newlines_last (n : nat) :
  forall s d, (List.length s <= n)%nat -> s <> [] -> isspace (last s d) = false ->
  universal_newlines s <> [] /\ last (universal_newlines s) d = last s d.
Proof.
  induction n as [|n IH]; intros s d Hlen Hne Hlast.
  - destruct s; [contradiction | simpl in Hlen; lia].
  - destruct s as [|c rest]; [contradiction|].
    simpl in Hlen.
    destruct rest as [|e rest'].
    + destruct (N.eq_dec c 13) as [Ec|Ec].
      * subst c. simpl in Hlast. rewrite isspace_cr in Hlast. discriminate.
      * rewrite universal_newlines_other by exact Ec.
        split; [discriminate | reflexivity].
    + rewrite (last_cons_nonempty c d (e :: rest')) in Hlast |- * by discriminate.
      assert (Hrec : forall t, (List.length t <= n)%nat -> t <> [] ->
                last t d = last (e :: rest') d ->
                forall x, x :: universal_newlines t <> [] /\
                          last (x :: universal_newlines t) d = last (e :: rest') d).
      { intros t Ht Hn Ht' x. rewrite <- Ht' in Hlast.
        destruct (IH t d Ht Hn Hlast) as [N1 N2].
        split; [discriminate|].
        rewrite (last_cons_nonempty x d _ N1), N2. exact Ht'. }
      destruct (N.eq_dec c 13) as [Ec|Ec].
      * subst c. destruct (N.eq_dec e 10) as [Ee|Ee].
        -- subst e. rewrite universal_newlines_cr_lf.
           destruct rest' as [|f rest''].
           ++ simpl in Hlast. rewrite isspace_lf in Hlast. discriminate.
           ++ apply Hrec; [simpl in Hlen |- *; lia | discriminate | reflexivity].
        -- rewrite universal_newlines_cr by exact Ee.
           apply Hrec; [simpl in Hlen |- *; lia | discriminate | reflexivity].
      * rewrite universal_newlines_other by exact Ec.
        apply Hrec; [simpl in Hlen |- *; lia | discriminate | reflexivity].
Qed.

Lemma lstrip_rev_fixed (s : pystr) (d : N) :
  s <> [] -> isspace (last s d) = false -> lstrip (rev s) = rev s.
Proof.
  intros Hne Hlast.
  destruct (exists_last Hne) as [s' [x E]]. subst s.
  rewrite last_last in Hlast.
  rewrite rev_app_distr. simpl. rewrite Hlast. reflexivity.
Qed.

Lemma lstrip_rev_last (s : pystr) (d : N) :
  s <> [] -> lstrip (rev s) = rev s -> isspace (last s d) = false.
Proof.
  intros Hne H.
  destruct (exists_last Hne) as [s' [x E]]. subst s.
  rewrite last_last. rewrite rev_app_distr in H. simpl app in H.
  exact (lstrip_fixed_head _ _ H).
Qed.

Lemma universal_newlines_trimmed (s : pystr) :
  trimmed s -> trimmed (universal_newlines s).
Proof.
  intros [Hl Hr]. destruct s as [|c rest].
  - split; reflexivity.
  - pose proof (lstrip_fixed_head _ _ Hl) as Hc.
    assert (Hne : c :: rest <> []) by discriminate.
    pose proof (lstrip_rev_last (c :: rest) 0%N Hne Hr) as Hlast.
    destruct (universal_newlines_last (S (List.length rest)) (c :: rest) 0%N
                (Nat.le_refl _) Hne Hlast) as [N1 N2].
    split.
    + destruct (N.eq_dec c 13) as [E|E].
      * subst c. rewrite isspace_cr in Hc. discriminate.
      * rewrite universal_newlines_other by exact E.
        simpl. rewrite Hc. reflexivity.
    + apply (lstrip_rev_fixed _ 0%N N1). rewrite N2. exact Hlast.
Qed.

Lemma strip_universal_newlines_strip (s : pystr) :
  strip (universal_newlines (strip s)) = universal_newlines (strip s).
Proof. apply trimmed_strip, universal_newlines_trimmed, strip_trimmed. Qed.

(** ** What the UTF-8 encoder accepts *)

Lemma encodable_app (s t : pystr) :
  encodable (s ++ t) = encodable s && encodable t.
Proof. apply forallb_app. Qed.

(** The literals of the source are ASCII. *)
Lemma encodable_lit (s : string) : encodable (lit s) = true.
Proof.
  unfold encodable, lit. apply forallb_forall. intros c Hc.
  apply in_map_iff in Hc. destruct Hc as (a & <- & _).
  pose proof (N_ascii_bounded a) as Hb. unfold is_surrogate.
  destruct (N.leb_spec 55296 (N_of_ascii a)); [lia | reflexivity].
Qed.

Lemma encodable_nl : encodable nl = true.
Proof. reflexivity. Qed.

Lemma encodable_str_of_int (n : Z) : encodable (str_of_int n) = true.
Proof. apply encodable_lit. Qed.

Lemma encodable_line (s : pystr) : encodable (s ++ nl) = encodable s.
Proof. rewrite encodable_app, encodable_nl. apply andb_true_r. Qed.

Lemma encodable_firstn (n : nat) (s : pystr) :
  encodable s = true -> encodable (firstn n s) = true.
Proof.
  intros H. rewrite <- (firstn_skipn n s), encodable_app in H.
  apply andb_prop in H. exact (proj1 H).
Qed.

Lemma encodable_skipn (n : nat) (s : pystr) :
  encodable s = true -> encodable (skipn n s) = true.
Proof.
  intros H. rewrite <- (firstn_skipn n s), encodable_app in H.
  apply andb_prop in H. exact (proj2 H).
Qed.

Lemma encodable_stars (n : nat) : encodable (repeat star n) = true.
Proof. induction n as [|n IH]; [reflexivity | exact IH]. Qed.

(** Texts made of literals, numbers and parts already known to encode. *)
Ltac encodes :=
  repeat first
    [ assumption
    | reflexivity
    | rewrite encodable_app
    | rewrite encodable_lit
    | rewrite encodable_str_of_int
    | rewrite encodable_stars
    | match goal with
      | H : forall _ _, encodable _ = true |- _ => rewrite H
      end
    | apply andb_true_intro; split ].

(** ** config.py *)

Lemma truthy_cons (k : pystr) : k <> [] -> truthy k = true.
Proof. destruct k; [contradiction | reflexivity]. Qed.

(** [load_api_key] in closed form: the environment variable first, then the
    file, and the world is left as it was. *)
Lemma load_api_key_unfold (w : world) :
  load_api_key w =
  (match environ_key w with
   | Some (c :: k) => Ret (Some (strip (c :: k)))
   | _ =>
       match config_dir w with
       | DirPresent (RegFile data mode) =>
           if owner_can_read mode
           then match data with
                | Text s => Ret (Some (strip (universal_newlines s)))
                | Undecodable reason => Raise (UnicodeDecodeError reason)
                end
           else Raise PermissionError
       | DirPresent SubDir => Raise IsADirectoryError
       | DirUnsearchable | DirUnreachable => Raise PermissionError
       | _ => Ret None
       end
   end, w).
Proof.
  unfold load_api_key, bind, environ_get, config_exists, read_text, ret.
  store_cases w; reflexivity.
Qed.

Lemma load_api_key_world (w : world) : snd (load_api_key w) = w.
Proof. rewrite load_api_key_unfold. reflexivity. Qed.

Lemma load_api_key_no_exit (w : world) (c : Z) : fst (load_api_key w) <> Exit c.
Proof.
  rewrite load_api_key_unfold. simpl. store_cases w; discriminate.
Qed.

(** C5 (as amended): the credential is the trimmed value of the environment
    variable when that is set and not empty, and the file is then not looked
    at; otherwise the trimmed text of the configuration file, read with its
    line ends translated, when the file is a readable text file; otherwise,
    when the existence test says that no file is there, the absent value.
    The world is never changed.  An exception is raised exactly when the
    variable gives nothing and either the existence test itself raises it,
    or the file exists and reading it as text raises it; when the file
    exists, the outcome is that of the read, trimmed. *)
Theorem load_api_key_resolution (w : world) :
  (forall k, environ_key w = Some k -> k <> [] ->
     load_api_key w = (Ret (Some (strip k)), w))
  /\ (forall s, truthy_opt (environ_key w) = false -> stored_text w = Some s ->
        load_api_key w = (Ret (Some (strip (universal_newlines s))), w))
  /\ (truthy_opt (environ_key w) = false -> fst (config_exists w) = Ret false ->
        load_api_key w = (Ret None, w))
  /\ snd (load_api_key w) = w
  /\ (forall e, fst (load_api_key w) = Raise e <->
        (truthy_opt (environ_key w) = false
         /\ (fst (config_exists w) = Raise e
             \/ (fst (config_exists w) = Ret true
                 /\ fst (read_text w) = Raise e))))
  /\ (truthy_opt (environ_key w) = false -> fst (config_exists w) = Ret true ->
        fst (load_api_key w)
        = match fst (read_text w) with
          | Ret s => Ret (Some (strip s))
          | Raise e => Raise e
          | Exit c => Exit c
          end).
Proof.
  rewrite load_api_key_unfold.
  unfold stored_text, config_exists, read_text. simpl.
  split; [|split; [|split; [|split; [reflexivity|split; [|]]]]].
  - intros k Hk Hne. rewrite Hk. destruct k; [contradiction | reflexivity].
  - intros s Henv Hs. revert Henv Hs.
    store_cases w; intros Henv Hs; try discriminate;
      injection Hs as ->; reflexivity.
  - intros Henv Hex. revert Henv Hex.
    store_cases w; intros Henv Hex; try discriminate; reflexivity.
  - intros e. split.
    + store_cases w; intros He; try discriminate He;
        (split; [reflexivity|]);
        injection He as <-;
        first [ left; reflexivity | right; split; reflexivity ].
    + intros (Henv & Hcases). revert Henv Hcases.
      store_cases w; intros Henv [He|[Hex He]];
        try discriminate; simpl in He; try discriminate;
        injection He as <-; reflexivity.
  - intros Henv Hex. revert Henv Hex.
    store_cases w; intros Henv Hex; try discriminate; reflexivity.
Qed.


(** [save_api_key] returns exactly when the store is writable and the
    trimmed key can be encoded, and then the file holds the trimmed key with
    mode [0o600]. *)
Lemma save_api_key_returns (v : pystr) (w w1 : world) :
  save_api_key v w = (Ret tt, w1) <->
  (writable_store w = true /\ encodable (strip v) = true
   /\ w1 = set_config_dir (DirPresent (RegFile (Text (strip v)) 384)) w).
Proof.
  unfold save_api_key, bind, ensure_config_dir, write_text, chmod, writable_store.
  destruct (config_dir w) as [| |[|data mode|]|?| |] eqn:D; simpl;
    try rewrite D; simpl.
  - destruct (encodable (strip v)); simpl; split.
    + intros H. injection H as <-. repeat split.
    + intros (_ & _ & ->). reflexivity.
    + discriminate.
    + intros (_ & H & _). discriminate.
  - split; [discriminate | intros (H & _); discriminate].
  - destruct (encodable (strip v)); simpl; split.
    + intros H. injection H as <-. repeat split.
    + intros (_ & _ & ->). reflexivity.
    + discriminate.
    + intros (_ & H & _). discriminate.
  - destruct (owner_can_write mode); simpl.
    + destruct (encodable (strip v)); simpl; split.
      * intros H. injection H as <-. repeat split.
      * intros (_ & _ & ->). reflexivity.
      * discriminate.
      * intros (_ & H & _). discriminate.
    + split; [discriminate | intros (H & _); discriminate].
  - split; [discriminate | intros (H & _); discriminate].
  - split; [discriminate | intros (H & _); discriminate].
  - split; [discriminate | intros (H & _); discriminate].
  - split; [discriminate | intros (H & _); discriminate].
Qed.

(** The permission bits [0o600]: read and write for the owner (bits 8 and
    7), and no other bit. *)
Lemma mode_0600_bits (i : Z) :
  Z.testbit 384 i = ((i =? 7) || (i =? 8)).
Proof.
  destruct (Z_lt_le_dec i 0) as [Hneg|Hpos].
  - rewrite Z.testbit_neg_r by exact Hneg.
    destruct (Z.eqb_spec i 7); [lia|]. destruct (Z.eqb_spec i 8); [lia|]. reflexivity.
  - destruct (Z_lt_le_dec i 9) as [Hsmall|Hbig].
    + assert (H : i = 0 \/ i = 1 \/ i = 2 \/ i = 3 \/ i = 4 \/ i = 5 \/ i = 6
                  \/ i = 7 \/ i = 8) by lia.
      repeat (destruct H as [-> | H]; [reflexivity|]). subst i. reflexivity.
    + rewrite Z.bits_above_log2 by (try lia; change (Z.log2 384) with 8; lia).
      destruct (Z.eqb_spec i 7); [lia|]. destruct (Z.eqb_spec i 8); [lia|]. reflexivity.
Qed.

(** C7 (as amended): with the environment variable unset, a
    [save_api_key v] that returns leaves the trimmed [v] in the file with
    mode [0o600], owner read and write only; [load_api_key] then returns the
    trimmed [v] with its line ends translated by the text-mode read, which is
    exactly the trimmed [v] when that holds no carriage return. *)
Theorem save_then_load (v : pystr) (w w1 : world) :
  environ_key w = None ->
  save_api_key v w = (Ret tt, w1) ->
  load_api_key w1 = (Ret (Some (universal_newlines (strip v))), w1)
  /\ (~ In 13%N (strip v) -> load_api_key w1 = (Ret (Some (strip v)), w1))
  /\ exists mode,
       config_dir w1 = DirPresent (RegFile (Text (strip v)) mode)
       /\ mode = 384
       /\ forall i, Z.testbit mode i = ((i =? 7) || (i =? 8)).
Proof.
  intros Henv Hsave.
  apply save_api_key_returns in Hsave. destruct Hsave as (_ & _ & ->).
  assert (Hload : load_api_key
                    (set_config_dir (DirPresent (RegFile (Text (strip v)) 384)) w)
                  = (Ret (Some (universal_newlines (strip v))),
                     set_config_dir (DirPresent (RegFile (Text (strip v)) 384)) w)).
  { rewrite load_api_key_unfold. simpl. rewrite Henv.
    change (owner_can_read 384) with true. cbv iota.
    rewrite strip_universal_newlines_strip. reflexivity. }
  split; [exact Hload|]. split.
  - intros Hcr. rewrite Hload, (universal_newlines_no_cr _ Hcr). reflexivity.
  - exists 384. repeat split. exact mode_0600_bits.
Qed.


(** ** client.py: the derived values of a result *)

Lemma int_truediv_nonzero (a b : Z) :
  b <> 0 -> int_truediv a b <> Err ZeroDivisionError.
Proof.
  intros Hb. unfold int_truediv.
  destruct (Z.eqb_spec b 0) as [E|_]; [contradiction|].
  destruct (is_infinity _); discriminate.
Qed.

(** C4: for a result whose token counts are integers, [tokens_saved] is the
    original count less the output count; [compression_ratio] is [0.0] when
    the original count is zero, whatever the output count is, and otherwise
    [(1 - output / original) * 100] in Python's arithmetic: the exact
    quotient of the two integers rounded once to the nearest double
    ([OverflowError] when that is out of range), then double subtraction
    and multiplication; it never fails with a division by zero; 100 and 60
    give the ratio [40.0] and 40 tokens saved, 3 and 1 give
    [66.66666666666667], 200 and 50 give [75.0], and an output of 150 for
    an original of 100 gives [-50.0]. *)
Theorem compression_result_derived (o t : pyval) (out orig : Z) :
  tokens_saved (mkCompressionResult o (PInt out) (PInt orig) t)
    = Ok (PInt (orig - out))
  /\ (forall any, compression_ratio (mkCompressionResult o any (PInt 0) t)
                  = Ok 0%float)
  /\ (orig <> 0 ->
      compression_ratio (mkCompressionResult o (PInt out) (PInt orig) t)
        = (q <~ int_truediv out orig ;; Ok ((1 - q) * 100)%float))
  /\ (orig <> 0 ->
      compression_ratio (mkCompressionResult o (PInt out) (PInt orig) t)
        = let q := SF2Prim (SFdiv prec emax (Z2SF out) (Z2SF orig)) in
          if is_infinity q then Err OverflowError
          else Ok ((1 - q) * 100)%float)
  /\ compression_ratio (mkCompressionResult o (PInt out) (PInt orig) t)
       <> Err ZeroDivisionError
  /\ compression_ratio (mkCompressionResult o (PInt 60) (PInt 100) t)
       = Ok 40%float
  /\ tokens_saved (mkCompressionResult o (PInt 60) (PInt 100) t)
       = Ok (PInt 40)
  /\ compression_ratio (mkCompressionResult o (PInt 1) (PInt 3) t)
       = Ok 66.666666666666671%float
  /\ compression_ratio (mkCompressionResult o (PInt 50) (PInt 200) t)
       = Ok 75%float
  /\ compression_ratio (mkCompressionResult o (PInt 150) (PInt 100) t)
       = Ok (-50)%float.
Proof.
  split; [reflexivity|]. split; [reflexivity|].
  assert (Hratio : orig <> 0 ->
            compression_ratio (mkCompressionResult o (PInt out) (PInt orig) t)
            = (q <~ int_truediv out orig ;; Ok ((1 - q) * 100)%float)).
  { intros Horig. unfold compression_ratio, py_eq_zero. simpl.
    destruct (Z.eqb_spec orig 0) as [E|_]; [contradiction | reflexivity]. }
  split; [exact Hratio|]. split.
  - intros Horig. rewrite (Hratio Horig). unfold int_truediv.
    destruct (Z.eqb_spec orig 0) as [E|_]; [contradiction|].
    cbv zeta. destruct (is_infinity _); reflexivity.
  - split.
    + unfold compression_ratio, py_eq_zero. simpl.
      destruct (Z.eqb_spec orig 0) as [E|Hne]; [intros H; discriminate H|].
      pose proof (int_truediv_nonzero out orig Hne) as Hq.
      change (py_truediv (PInt out) (PInt orig)) with (int_truediv out orig).
      destruct (int_truediv out orig) as [q|e]; simpl;
        [intros H; discriminate H|].
      intros H. apply Hq. exact H.
    + repeat split; vm_compute; reflexivity.
Qed.


(** ** Operations on the world *)

Lemma bind_assoc {A B C : Type} (m : M A) (f : A -> M B) (g : B -> M C) (w : world) :
  bind (bind m f) g w = bind m (fun a => bind (f a) g) w.
Proof. unfold bind. destruct (m w) as [[a|e|c] w1]; reflexivity. Qed.

Lemma no_exit_ret {A : Type} (a : A) : no_exit (ret a).
Proof. intros w c. discriminate. Qed.

Lemma no_exit_raise {A : Type} (e : exn) : no_exit (@raise A e).
Proof. intros w c. discriminate. Qed.

Lemma no_exit_lift {A : Type} (r : result A) : no_exit (lift r).
Proof. intros w c. unfold lift. destruct r; discriminate. Qed.

Lemma no_exit_bind {A B : Type} (m : M A) (k : A -> M B) :
  no_exit m -> (forall a, no_exit (k a)) -> no_exit (bind m k).
Proof.
  intros Hm Hk w c. unfold bind. specialize (Hm w).
  destruct (m w) as [[a|e|c'] w1]; simpl in *.
  - apply Hk.
  - discriminate.
  - exfalso. exact (Hm c' eq_refl).
Qed.

Lemma no_exit_write_stdout (s : pystr) : no_exit (write_stdout s).
Proof. intros w c. unfold write_stdout. destruct (encodable s); discriminate. Qed.

(** A text that can be encoded is written; any other raises and leaves
    the world as it was. *)
Lemma write_stdout_ok (s : pystr) (w : world) :
  encodable s = true ->
  write_stdout s w = (Ret tt, set_stdout (stdout w ++ s) w).
Proof. intros H. unfold write_stdout. rewrite H. reflexivity. Qed.

Lemma write_stdout_fails (s : pystr) (w : world) :
  encodable s = false ->
  write_stdout s w = (Raise (UnicodeEncodeError (surrogates_not_allowed s)), w).
Proof. intros H. unfold write_stdout. rewrite H. reflexivity. Qed.

Lemma print_ok (s : pystr) (w : world) :
  encodable s = true ->
  print s w = (Ret tt, set_stdout (stdout w ++ s ++ nl) w).
Proof.
  intros H. unfold print. apply write_stdout_ok.
  rewrite encodable_line. exact H.
Qed.

Lemma print_fails (s : pystr) (w : world) :
  encodable s = false ->
  print s w = (Raise (UnicodeEncodeError (surrogates_not_allowed (s ++ nl))), w).
Proof.
  intros H. unfold print. apply write_stdout_fails.
  rewrite encodable_line. exact H.
Qed.

(** A run of [print]s of texts that encode. *)
Ltac run_prints := repeat (rewrite print_ok by encodes; cbv beta iota).

Lemma no_exit_write_stderr (s : pystr) : no_exit (write_stderr s).
Proof. intros w c. discriminate. Qed.

Lemma no_exit_if {A : Type} (b : bool) (m1 m2 : M A) :
  no_exit m1 -> no_exit m2 -> no_exit (if b then m1 else m2).
Proof. destruct b; trivial. Qed.

(** [error] writes its line and ends the process with code 1. *)
Lemma error_run {A : Type} (message : pystr) (w : world) :
  @error A message w
  = (Exit 1, set_stderr (stderr w ++ (lit "error: " ++ message) ++ nl) w).
Proof. reflexivity. Qed.

(** ** client.py: [compress] *)

(** The two reads of [error.message] agree: the chain of [get] calls with
    its [AttributeError] fallback gives the field when the body has it and
    the raw text otherwise. *)
Lemma error_message_get (r : response) :
  py_str
    match json r with
    | None => PStr (text r)
    | Some error_data =>
        match dict_get error_data (lit "error") (PDict []) with
        | None => PStr (text r)
        | Some err =>
            match dict_get err (lit "message") (PStr (text r)) with
            | None => PStr (text r)
            | Some message => message
            end
        end
    end
  = error_message r.
Proof.
  unfold error_message, dict_get.
  destruct (json r) as [[| | | | |items|top]|]; try reflexivity.
  destruct (lookup (lit "error") top) as [[| | | | |items|err]|]; try reflexivity.
  destruct (lookup (lit "message") err) as [message|]; reflexivity.
Qed.

(** [compress] in closed form: either the local validation fails and the
    world is untouched, or exactly one request is sent and its answer
    decides the outcome. *)
Lemma compress_unfold (self : TokenOptimizerClient) (text_ : pystr) (a : float)
    (mx mn : option Z) (model : pystr) (w : world) :
  compress self text_ a mx mn model w =
  if in_unit_interval a
  then (answer_outcome (server w (build_request self text_ a mx mn model)),
        set_sent (sent w ++ [build_request self text_ a mx mn model]) w)
  else (Raise (ValueError (lit "Aggressiveness must be between 0.0 and 1.0")), w).
Proof.
  unfold compress. destruct (in_unit_interval a); [|reflexivity].
  cbn [negb]. unfold bind, requests_post.
  destruct (server w (build_request self text_ a mx mn model)) as [| |e|r|e];
    try reflexivity.
  unfold answer_outcome.
  destruct (status_code r =? 401); [reflexivity|].
  destruct (status_code r =? 403); [reflexivity|].
  unfold ok. rewrite negb_involutive.
  destruct ((400 <=? status_code r) && (status_code r <? 600)).
  - unfold raise. rewrite error_message_get. reflexivity.
  - unfold parse_success. destruct (json r) as [data|]; [|reflexivity].
    unfold lift.
    destruct (o <~ getitem data (lit "output") ;;
              ot <~ getitem data (lit "output_tokens") ;;
              it <~ getitem data (lit "original_input_tokens") ;;
              ct <~ getitem data (lit "compression_time") ;;
              Ok (mkCompressionResult o ot it ct)); reflexivity.
Qed.

Lemma parse_success_no_exit (r : response) (c : Z) : parse_success r <> Exit c.
Proof.
  unfold parse_success. destruct (json r); [|discriminate].
  destruct (_ <~ _ ;; _); discriminate.
Qed.

Lemma parse_success_value_error (r : response) (msg : pystr) :
  parse_success r <> Raise (ValueError msg).
Proof.
  unfold parse_success. destruct (json r) as [data|]; [|discriminate].
  unfold getitem.
  destruct data as [| | | | | |items]; try discriminate.
  repeat match goal with
         | |- context [lookup ?k items] => destruct (lookup k items); simpl
         end; discriminate.
Qed.

Lemma answer_outcome_no_exit (t : transport) (c : Z) : answer_outcome t <> Exit c.
Proof.
  destruct t as [| |e|r|e]; try discriminate. unfold answer_outcome.
  destruct (status_code r =? 401); [discriminate|].
  destruct (status_code r =? 403); [discriminate|].
  destruct (_ && _); [discriminate|].
  apply parse_success_no_exit.
Qed.

(** A [ValueError] of [compress] after its validation is one that
    [requests.post] raised. *)
Lemma answer_outcome_value_error (t : transport) (msg : pystr) :
  answer_outcome t = Raise (ValueError msg) -> t = Raised (ValueError msg).
Proof.
  destruct t as [| |e|r|e]; try discriminate.
  - unfold answer_outcome.
    destruct (status_code r =? 401); [discriminate|].
    destruct (status_code r =? 403); [discriminate|].
    destruct (_ && _); [discriminate|].
    intros H. exfalso. exact (parse_success_value_error _ _ H).
  - simpl. intros H. injection H as ->. reflexivity.
Qed.

(** C1 (as amended): when the service answers the request, status 401
    raises the authentication error "Invalid API key", status 403 raises the
    authentication error "API key does not have access to this resource",
    and every other status from 400 to 599 raises the API error
    "API error (<status>): <message>", the message being the field
    [error.message] of a JSON body that has it and the raw body text
    otherwise.  Every status below 400 or above 599, and not only those from
    200 to 299, goes on to the parsing of the success body. *)
Theorem compress_status_mapping (self : TokenOptimizerClient) (text_ : pystr)
    (a : float) (mx mn : option Z) (model : pystr) (w : world) (r : response) :
  in_unit_interval a = true ->
  server w (build_request self text_ a mx mn model) = Responded r ->
  (status_code r = 401 ->
     fst (compress self text_ a mx mn model w)
     = Raise (AuthenticationError (lit "Invalid API key")))
  /\ (status_code r = 403 ->
        fst (compress self text_ a mx mn model w)
        = Raise (AuthenticationError
                   (lit "API key does not have access to this resource")))
  /\ (status_code r <> 401 -> status_code r <> 403 ->
      400 <= status_code r < 600 ->
        fst (compress self text_ a mx mn model w)
        = Raise (APIError (lit "API error (" ++ str_of_int (status_code r)
                           ++ lit "): " ++ error_message r)))
  /\ (status_code r < 400 \/ 600 <= status_code r ->
        fst (compress self text_ a mx mn model w) = parse_success r).
Proof.
  intros Ha Hr. rewrite compress_unfold, Ha, Hr. simpl.
  repeat split.
  - intros ->. reflexivity.
  - intros ->. reflexivity.
  - intros H1 H3 [Hlo Hhi].
    destruct (Z.eqb_spec (status_code r) 401); [contradiction|].
    destruct (Z.eqb_spec (status_code r) 403); [contradiction|].
    destruct (Z.leb_spec 400 (status_code r)); [|lia].
    destruct (Z.ltb_spec (status_code r) 600); [|lia].
    reflexivity.
  - intros Hout.
    destruct (Z.eqb_spec (status_code r) 401); [lia|].
    destruct (Z.eqb_spec (status_code r) 403); [lia|].
    destruct (Z.leb_spec 400 (status_code r));
      destruct (Z.ltb_spec (status_code r) 600); try reflexivity; lia.
Qed.

(** C6: [compress] raises the invalid-input error with the message
    "Aggressiveness must be between 0.0 and 1.0" and with the world as it
    was, so before any call of [requests.post], exactly when the
    aggressiveness fails [0.0 <= a <= 1.0]; a valid aggressiveness makes the
    call, the outcome is then decided by its answer, and a [ValueError] that
    comes out then is one that [requests.post] itself raised; the bounds 0.0
    and 1.0 are valid, 1.5, -0.1 and NaN are not. *)
Theorem compress_validates_aggressiveness (self : TokenOptimizerClient)
    (text_ : pystr) (a : float) (mx mn : option Z) (model : pystr) (w : world) :
  (in_unit_interval a = false <->
   compress self text_ a mx mn model w
   = (Raise (ValueError (lit "Aggressiveness must be between 0.0 and 1.0")), w))
  /\ (in_unit_interval a = true ->
      sent (snd (compress self text_ a mx mn model w))
      = sent w ++ [build_request self text_ a mx mn model]
      /\ fst (compress self text_ a mx mn model w)
         = answer_outcome (server w (build_request self text_ a mx mn model))
      /\ forall msg,
           fst (compress self text_ a mx mn model w) = Raise (ValueError msg) ->
           server w (build_request self text_ a mx mn model)
           = Raised (ValueError msg))
  /\ in_unit_interval 0 = true /\ in_unit_interval 1 = true
  /\ in_unit_interval 1.5 = false /\ in_unit_interval (-0.1) = false
  /\ in_unit_interval nan = false.
Proof.
  rewrite compress_unfold.
  destruct (in_unit_interval a) eqn:Ha; simpl.
  - split.
    + split; [discriminate|].
      intros H. exfalso.
      assert (Hs : sent (set_sent (sent w ++ [build_request self text_ a mx mn model]) w)
                   = sent w) by (injection H as _ ->; reflexivity).
      simpl in Hs. apply (f_equal (@List.length request)) in Hs.
      rewrite length_app in Hs. simpl in Hs. lia.
    + split.
      * intros _. split; [reflexivity|]. split; [reflexivity|].
        intros msg H. exact (answer_outcome_value_error _ _ H).
      * repeat split.
  - split.
    + split; reflexivity.
    + split; [discriminate|]. repeat split.
Qed.

(** C10: the request of a valid [compress] call carries a
    [compression_settings] object that always has the keys
    [max_output_tokens] and [min_output_tokens]; an argument that is not
    given is there as [None], which the JSON body shows as [null]. *)
Theorem compress_sends_token_limits (self : TokenOptimizerClient)
    (text_ : pystr) (a : float) (mx mn : option Z) (model : pystr) (w : world) :
  in_unit_interval a = true ->
  exists req settings,
    sent (snd (compress self text_ a mx mn model w)) = sent w ++ [req]
    /\ dict_get (req_json req) (lit "compression_settings") PNone
       = Some (PDict settings)
    /\ lookup (lit "max_output_tokens") settings = Some (of_optional_int mx)
    /\ lookup (lit "min_output_tokens") settings = Some (of_optional_int mn)
    /\ (mx = None -> lookup (lit "max_output_tokens") settings = Some PNone)
    /\ (mn = None -> lookup (lit "min_output_tokens") settings = Some PNone)
    /\ json_dumps (req_json req)
       = lit "{" ++ json_quote (lit "model") ++ lit ": " ++ json_quote model
         ++ lit ", " ++ json_quote (lit "input") ++ lit ": " ++ json_quote text_
         ++ lit ", " ++ json_quote (lit "compression_settings") ++ lit ": {"
         ++ json_quote (lit "aggressiveness") ++ lit ": " ++ repr_float a
         ++ lit ", " ++ json_quote (lit "max_output_tokens") ++ lit ": "
         ++ json_dumps (of_optional_int mx)
         ++ lit ", " ++ json_quote (lit "min_output_tokens") ++ lit ": "
         ++ json_dumps (of_optional_int mn) ++ lit "}}"
    /\ json_dumps (of_optional_int None) = lit "null".
Proof.
  intros Ha. rewrite compress_unfold, Ha. simpl snd.
  eexists. eexists.
  split; [reflexivity|]. split; [reflexivity|].
  split; [reflexivity|]. split; [reflexivity|].
  split; [intros ->; reflexivity|]. split; [intros ->; reflexivity|].
  split; [|reflexivity].
  cbn [json_dumps build_request req_json List.map join].
  repeat rewrite <- app_assoc. reflexivity.
Qed.


(** ** cli.py *)

Lemma no_exit_load_api_key : no_exit load_api_key.
Proof. intros w c. apply load_api_key_no_exit. Qed.

Lemma no_exit_save_api_key (k : pystr) : no_exit (save_api_key k).
Proof.
  intros w c.
  unfold save_api_key, bind, ensure_config_dir, write_text, chmod.
  destruct (config_dir w) as [| |[|data mode|]|?| |] eqn:D; simpl;
    try rewrite D; simpl;
    try destruct (owner_can_write mode); simpl;
    try destruct (encodable (strip k)); simpl; discriminate.
Qed.

Lemma no_exit_delete_api_key : no_exit delete_api_key.
Proof.
  intros w c. unfold delete_api_key, bind, config_exists, unlink, ret.
  destruct (config_dir w) as [| |[|data mode|]|?| |] eqn:D; simpl;
    try rewrite D; simpl; discriminate.
Qed.

Lemma no_exit_print_stats (result : CompressionResult) (q : bool) :
  no_exit (print_stats result q).
Proof.
  unfold print_stats. destruct q; [apply no_exit_ret|].
  apply no_exit_bind; [apply no_exit_lift|].
  intros line. apply no_exit_write_stderr.
Qed.

(** The rendering of a result never ends the process. *)
Lemma no_exit_render (args : optimize_args) (result : CompressionResult) :
  no_exit
    (if stats_only args
     then
       print (lit "Original tokens: " ++ py_str (original_input_tokens result)) ;;;
       print (lit "Output tokens: " ++ py_str (output_tokens result)) ;;;
       saved <- lift (tokens_saved result) ;;
       print (lit "Tokens saved: " ++ py_str saved) ;;;
       ratio <- lift (compression_ratio result) ;;
       print (lit "Compression ratio: " ++ format_fixed 1 ratio ++ lit "%") ;;;
       time <- lift (py_format_f 2 (compression_time result)) ;;
       print (lit "Compression time: " ++ time ++ lit "s")
     else
       print_stats result (quiet args) ;;;
       print (py_str (output result))).
Proof.
  destruct (stats_only args).
  - repeat first
      [ apply no_exit_write_stdout
      | apply no_exit_lift
      | apply no_exit_bind; [|intros ?] ].
  - apply no_exit_bind; [apply no_exit_print_stats|].
    intros _. apply no_exit_write_stdout.
Qed.

(** Without a usable credential [cmd_optimize] stops at once. *)
Lemma cmd_optimize_no_key (args : optimize_args) (w : world) (k : option pystr) :
  load_api_key w = (Ret k, w) -> truthy_opt k = false ->
  cmd_optimize args w
  = (Exit 1,
     set_stderr
       (stderr w
        ++ lit "error: No API key configured. Run 'tokenoptimizer auth set' or set TOKENOPTIMIZER_API_KEY"
        ++ nl) w).
Proof.
  intros Hload Hk. unfold cmd_optimize.
  unfold bind at 1. rewrite Hload.
  unfold bind at 1. rewrite Hk. cbn [negb]. rewrite error_run.
  reflexivity.
Qed.

(** ** [auth set] and [auth show] *)

Lemma slice_last_rev (n : nat) (s : pystr) :
  slice_last n s = rev (firstn n (rev s)).
Proof.
  unfold slice_last. rewrite firstn_rev, rev_involutive. reflexivity.
Qed.

Lemma masked_length (key : pystr) : List.length (masked key) = List.length key.
Proof.
  unfold masked, slice_to, slice_last.
  destruct (Nat.ltb_spec 8 (List.length key)) as [H|H].
  - rewrite !length_app, repeat_length, length_firstn, length_skipn. lia.
  - apply repeat_length.
Qed.

Lemma encodable_masked (key : pystr) :
  encodable key = true -> encodable (masked key) = true.
Proof.
  intros H. unfold masked, slice_to, slice_last.
  destruct (8 <? List.length key)%nat; [|apply encodable_stars].
  rewrite !encodable_app, encodable_stars,
    (encodable_firstn _ _ H), (encodable_skipn _ _ H). reflexivity.
Qed.

(** [auth show] in a world where a key is configured: the masked key and
    its source are printed, unless the masked key cannot be encoded. *)
Lemma auth_show_key (w : world) (key : pystr) :
  load_api_key w = (Ret (Some key), w) -> key <> [] ->
  cmd_auth AuthShow w
  = if encodable (masked key)
    then (Ret 0,
          set_stdout
            (stdout w ++ (lit "API key: " ++ masked key) ++ nl
             ++ (lit "Source: "
                 ++ (if match environ_key w with Some _ => true | None => false end
                     then lit "environment" else lit "config file")) ++ nl) w)
    else (Raise (UnicodeEncodeError
                   (surrogates_not_allowed ((lit "API key: " ++ masked key) ++ nl))),
          w).
Proof.
  intros Hload Hne. unfold cmd_auth.
  unfold bind at 1. rewrite Hload.
  cbn [truthy_opt]. rewrite (truthy_cons key Hne).
  destruct (encodable (masked key)) eqn:E.
  - unfold bind. rewrite print_ok by encodes.
    unfold environ_has. cbn [environ_key set_stdout].
    destruct (environ_key w); rewrite print_ok by encodes;
      unfold ret, set_stdout;
      cbn [home environ_key umask config_dir input_files stdin_isatty stdin
           stdout stderr server sent];
      rewrite <- !app_assoc; reflexivity.
  - unfold bind. rewrite print_fails by (rewrite encodable_app, encodable_lit; exact E).
    reflexivity.
Qed.

(** C8: [auth show] prints the credential masked: for a length above 8 the
    first four characters, then length less 8 mask characters, then the
    last four characters; for a length of 8 or less one mask character per
    character.  The masked key is what follows "API key: " on the first
    line that [auth show] prints, before the line of the source; a masked
    key that standard output cannot encode raises [UnicodeEncodeError]
    instead, with nothing printed. *)
Theorem masked_display (key : pystr) :
  ((8 < List.length key)%nat ->
     masked key
     = firstn 4 key ++ repeat star (List.length key - 8) ++ rev (firstn 4 (rev key)))
  /\ ((List.length key <= 8)%nat -> masked key = repeat star (List.length key))
  /\ List.length (masked key) = List.length key
  /\ (forall w, load_api_key w = (Ret (Some key), w) -> key <> [] ->
        exists source,
          cmd_auth AuthShow w
          = if encodable (masked key)
            then (Ret 0,
                  set_stdout (stdout w ++ (lit "API key: " ++ masked key) ++ nl
                              ++ (lit "Source: " ++ source) ++ nl) w)
            else (Raise (UnicodeEncodeError
                           (surrogates_not_allowed
                              ((lit "API key: " ++ masked key) ++ nl))), w))
  /\ (encodable key = true -> encodable (masked key) = true).
Proof.
  split; [|split; [|split; [|split]]].
  - intros H. unfold masked. apply Nat.ltb_lt in H. rewrite H.
    rewrite slice_last_rev. reflexivity.
  - intros H. unfold masked.
    destruct (Nat.ltb_spec 8 (List.length key)); [lia | reflexivity].
  - apply masked_length.
  - intros w Hload Hne.
    exists (if match environ_key w with Some _ => true | None => false end
            then lit "environment" else lit "config file").
    apply auth_show_key; assumption.
  - apply encodable_masked.
Qed.


(** [auth show] in a world where no key is configured. *)
Lemma auth_show_no_key (w : world) (k : option pystr) :
  load_api_key w = (Ret k, w) -> truthy_opt k = false ->
  cmd_auth AuthShow w
  = (Ret 0,
     set_stdout
       (stdout w ++ lit "No API key configured" ++ nl
        ++ lit "Set one with: tokenoptimizer auth set" ++ nl
        ++ lit "Or set TOKENOPTIMIZER_API_KEY environment variable" ++ nl) w).
Proof.
  intros Hload Hk. unfold cmd_auth. unfold bind at 1. rewrite Hload, Hk.
  unfold bind. run_prints.
  unfold ret, set_stdout.
  cbn [home environ_key umask config_dir input_files stdin_isatty stdin
       stdout stderr server sent].
  rewrite <- !app_assoc. reflexivity.
Qed.

(** C9: when the environment variable is set to a non-empty string of
    whitespace only, [load_api_key] returns the empty string whatever the
    configuration file holds, neither the file's credential nor the absent
    value; [cmd_optimize] then stops with "No API key configured" and
    [auth show] reports that no key is configured. *)
Theorem blank_env_key_hides_file (w : world) (k : pystr) (args : optimize_args) :
  environ_key w = Some k -> k <> [] -> forallb isspace k = true ->
  load_api_key w = (Ret (Some []), w)
  /\ (forall d, fst (load_api_key (set_config_dir d w)) = Ret (Some []))
  /\ cmd_optimize args w
     = (Exit 1,
        set_stderr
          (stderr w
           ++ lit "error: No API key configured. Run 'tokenoptimizer auth set' or set TOKENOPTIMIZER_API_KEY"
           ++ nl) w)
  /\ cmd_auth AuthShow w
     = (Ret 0,
        set_stdout
          (stdout w ++ lit "No API key configured" ++ nl
           ++ lit "Set one with: tokenoptimizer auth set" ++ nl
           ++ lit "Or set TOKENOPTIMIZER_API_KEY environment variable" ++ nl) w).
Proof.
  intros Henv Hne Hsp.
  assert (Hload : forall d,
            load_api_key (set_config_dir d w)
            = (Ret (Some []), set_config_dir d w)).
  { intros d. rewrite load_api_key_unfold. simpl. rewrite Henv.
    destruct k as [|c k']; [contradiction|].
    rewrite (strip_all_space _ Hsp). reflexivity. }
  assert (Hw : load_api_key w = (Ret (Some []), w)).
  { rewrite load_api_key_unfold, Henv.
    destruct k as [|c k']; [contradiction|].
    rewrite (strip_all_space _ Hsp). reflexivity. }
  split; [exact Hw|]. split; [|split].
  - intros d. rewrite Hload. reflexivity.
  - apply (cmd_optimize_no_key args w (Some [])); [exact Hw | reflexivity].
  - apply (auth_show_no_key w (Some [])); [exact Hw | reflexivity].
Qed.

(** [auth set --key KEY] with a non-empty [KEY] on a writable store saves
    the trimmed key and reports the path, with no look at what the trimming
    leaves. *)
Lemma auth_set_key_run (w : world) (key : pystr) :
  truthy key = true -> writable_store w = true -> encodable (strip key) = true ->
  cmd_auth (AuthSet (Some key)) w
  = (Ret 0,
     set_stderr (stderr w ++ (lit "API key saved to " ++ CONFIG_FILE w) ++ nl)
       (set_config_dir (DirPresent (RegFile (Text (strip key)) 384)) w)).
Proof.
  intros Hk Hw He. unfold cmd_auth. cbn [truthy_opt]. rewrite Hk.
  assert (Hs : save_api_key key w
               = (Ret tt, set_config_dir (DirPresent (RegFile (Text (strip key)) 384)) w)).
  { apply save_api_key_returns. repeat split; assumption. }
  unfold bind at 1. unfold ret at 1. rewrite Hk. cbn [negb].
  unfold bind at 1. unfold ret at 1.
  unfold bind at 1. rewrite Hs.
  reflexivity.
Qed.

(** C3, at the input where the code departs from it: [auth set --key "   "]
    does not fail; it writes an empty configuration file, reports the path
    and returns 0. *)
Theorem auth_set_blank_key_saved :
  strip (lit "   ") = []
  /\ cmd_auth (AuthSet (Some (lit "   "))) first_run
     = (Ret 0,
        set_stderr (lit "API key saved to /home/user/.config/tokenoptimizer/config" ++ nl)
          (set_config_dir (DirPresent (RegFile (Text []) 384)) first_run)).
Proof.
  split; [reflexivity|].
  rewrite auth_set_key_run by reflexivity. reflexivity.
Qed.

(** The sibling path: a blank line at the prompt of [auth set] is a fatal
    error, and nothing is saved. *)
Lemma auth_set_prompt_blank (w : world) (key : option pystr) (line rest : pystr) :
  truthy_opt key = false -> stdin w <> [] -> split_line (stdin w) = (line, rest) ->
  strip line = [] ->
  exists w',
    cmd_auth (AuthSet key) w = (Exit 1, w')
    /\ config_dir w' = config_dir w
    /\ stderr w'
       = stderr w ++ lit "Enter your API key: " ++ lit "error: API key cannot be empty" ++ nl.
Proof.
  intros Hk Hin Hsplit Hline. unfold cmd_auth. rewrite Hk.
  unfold bind, write_stderr, input. cbn [stdin set_stderr].
  destruct (stdin w) as [|c s] eqn:Es; [contradiction|].
  rewrite Hsplit. unfold ret. rewrite Hline. cbn [truthy negb].
  rewrite error_run. eexists. split; [reflexivity|]. split; [reflexivity|].
  cbn [stderr set_stderr set_stdin]. rewrite <- !app_assoc. reflexivity.
Qed.


(** ** config.py: deleting, overwriting and reading back *)

(** [delete_api_key] in closed form. *)
Lemma delete_api_key_unfold (w : world) :
  delete_api_key w =
  match config_dir w with
  | DirPresent (RegFile _ _) => (Ret true, set_config_dir (DirPresent NoEntry) w)
  | DirPresent SubDir => (Raise IsADirectoryError, w)
  | DirUnsearchable | DirUnreachable => (Raise PermissionError, w)
  | _ => (Ret false, w)
  end.
Proof.
  unfold delete_api_key, bind, config_exists, unlink, ret.
  destruct (config_dir w) as [| |[|data mode|]|?| |] eqn:D; simpl;
    try rewrite D; reflexivity.
Qed.


(** X2: after a [delete_api_key] that returns, [load_api_key] gives the
    trimmed environment variable when that is set and not empty, and the
    absent value otherwise: the stored credential is gone, the variable is
    still honoured. *)
Theorem load_after_delete (w w' : world) (b : bool) :
  delete_api_key w = (Ret b, w') ->
  load_api_key w'
  = (Ret (match environ_key w with
          | Some (c :: k) => Some (strip (c :: k))
          | _ => None
          end), w').
Proof.
  rewrite delete_api_key_unfold.
  destruct (config_dir w) as [| |[|data mode|]|?| |] eqn:D; intros H;
    try discriminate H; injection H as <- <-;
    rewrite load_api_key_unfold; cbn [config_dir environ_key set_config_dir];
    try rewrite D;
    destruct (environ_key w) as [[|c k]|]; reflexivity.
Qed.

(** X3: the last write wins.  After a [save_api_key] that returned, a second
    one returns whenever its trimmed key can be encoded, and it leaves the
    world exactly as if the first had never been made. *)
Theorem save_api_key_overwrites (v1 v2 : pystr) (w w1 : world) :
  save_api_key v1 w = (Ret tt, w1) ->
  encodable (strip v2) = true ->
  exists w2,
    save_api_key v2 w1 = (Ret tt, w2)
    /\ save_api_key v2 w = (Ret tt, w2)
    /\ config_dir w2 = DirPresent (RegFile (Text (strip v2)) 384).
Proof.
  intros H1 He.
  apply save_api_key_returns in H1. destruct H1 as (Hw & _ & ->).
  exists (set_config_dir (DirPresent (RegFile (Text (strip v2)) 384)) w).
  split; [|split; [|reflexivity]].
  - apply save_api_key_returns. repeat split. exact He.
  - apply save_api_key_returns. repeat split; assumption.
Qed.

(** X4: whatever [load_api_key] returns is trimmed: it has no whitespace at
    either end, so trimming it again changes nothing. *)
Theorem load_api_key_is_trimmed (w : world) (k : pystr) :
  fst (load_api_key w) = Ret (Some k) -> strip k = k /\ trimmed k.
Proof.
  rewrite load_api_key_unfold. cbn [fst].
  assert (T : forall s, Ret (Some (strip s)) = Ret (Some k) -> strip k = k /\ trimmed k).
  { intros s E. injection E as <-. split; [apply strip_idem | apply strip_trimmed]. }
  destruct (environ_key w) as [[|c e]|];
    destruct (config_dir w) as [| |[|[s|?] mode|]|?| |];
    try destruct (owner_can_read mode); intros H; try discriminate H;
    exact (T _ H).
Qed.

(** X5: saving back the key that was just loaded changes nothing, when the
    saved key holds no carriage return. *)
Theorem save_of_loaded_key (v k : pystr) (w w1 : world) :
  environ_key w = None ->
  save_api_key v w = (Ret tt, w1) ->
  ~ In 13%N (strip v) ->
  fst (load_api_key w1) = Ret (Some k) ->
  k = strip v /\ save_api_key k w1 = (Ret tt, w1).
Proof.
  intros Henv Hs Hcr Hl.
  apply save_api_key_returns in Hs. destruct Hs as (Hw & He & ->).
  rewrite load_api_key_unfold in Hl. cbn in Hl. rewrite Henv in Hl.
  change (owner_can_read 384) with true in Hl. cbn iota in Hl.
  rewrite strip_universal_newlines_strip, (universal_newlines_no_cr _ Hcr) in Hl.
  injection Hl as <-. split; [reflexivity|].
  apply save_api_key_returns. rewrite strip_idem.
  repeat split. exact He.
Qed.


(** ** client.py: what else [compress] does *)

(** X6: with a valid aggressiveness, a request that times out raises the
    API error "Request timed out", one whose connection fails raises
    "Failed to connect to API", and any other transport failure raises
    "Request failed: <detail>"; in each case exactly one request was sent,
    with no retry. *)
Theorem compress_transport_errors (self : TokenOptimizerClient) (text_ : pystr)
    (a : float) (mx mn : option Z) (model : pystr) (w : world) :
  in_unit_interval a = true ->
  sent (snd (compress self text_ a mx mn model w))
    = sent w ++ [build_request self text_ a mx mn model]
  /\ (server w (build_request self text_ a mx mn model) = Timeout ->
      fst (compress self text_ a mx mn model w)
      = Raise (APIError (lit "Request timed out")))
  /\ (server w (build_request self text_ a mx mn model) = ConnectionError ->
      fst (compress self text_ a mx mn model w)
      = Raise (APIError (lit "Failed to connect to API")))
  /\ (forall detail,
      server w (build_request self text_ a mx mn model) = RequestException detail ->
      fst (compress self text_ a mx mn model w)
      = Raise (APIError (lit "Request failed: " ++ detail))).
Proof.
  intros Ha. rewrite compress_unfold, Ha. cbn [fst snd].
  split; [reflexivity|].
  split; [|split]; intros; match goal with H : server _ _ = _ |- _ => rewrite H end;
    reflexivity.
Qed.

Lemma parse_success_dict (r : response) (items : list (pystr * pyval)) :
  json r = Some (PDict items) ->
  parse_success r =
  match first_missing items with
  | Some key => Raise (KeyError key)
  | None =>
      Ret (mkCompressionResult (field items (lit "output"))
             (field items (lit "output_tokens"))
             (field items (lit "original_input_tokens"))
             (field items (lit "compression_time")))
  end.
Proof.
  intros Hj. unfold parse_success, first_missing, field, getitem. rewrite Hj.
  cbn [find rbind].
  destruct (lookup (lit "output") items); [|reflexivity]. cbn [rbind].
  destruct (lookup (lit "output_tokens") items); [|reflexivity]. cbn [rbind].
  destruct (lookup (lit "original_input_tokens") items); [|reflexivity]. cbn [rbind].
  destruct (lookup (lit "compression_time") items); reflexivity.
Qed.

(** X7: an answer whose status is below 400 or above 599 is read as a
    success.  A body that is no JSON raises the API error "Invalid JSON
    response from API"; a JSON object gives a result holding its four fields
    exactly as they came, of whatever type, or raises [KeyError] with the
    first key that is missing; any other JSON value raises [TypeError]. *)
Theorem compress_success_body (self : TokenOptimizerClient) (text_ : pystr)
    (a : float) (mx mn : option Z) (model : pystr) (w : world) (r : response) :
  in_unit_interval a = true ->
  server w (build_request self text_ a mx mn model) = Responded r ->
  status_code r < 400 \/ 600 <= status_code r ->
  fst (compress self text_ a mx mn model w) =
  match json r with
  | None => Raise (APIError (lit "Invalid JSON response from API"))
  | Some (PDict items) =>
      match first_missing items with
      | Some key => Raise (KeyError key)
      | None =>
          Ret (mkCompressionResult (field items (lit "output"))
                 (field items (lit "output_tokens"))
                 (field items (lit "original_input_tokens"))
                 (field items (lit "compression_time")))
      end
  | Some _ => Raise TypeError
  end.
Proof.
  intros Ha Hr Hs. rewrite compress_unfold, Ha, Hr. cbn [fst answer_outcome].
  destruct (Z.eqb_spec (status_code r) 401); [lia|].
  destruct (Z.eqb_spec (status_code r) 403); [lia|].
  replace ((400 <=? status_code r) && (status_code r <? 600)) with false
    by (destruct (Z.leb_spec 400 (status_code r));
        destruct (Z.ltb_spec (status_code r) 600); simpl; try reflexivity; lia).
  destruct (json r) as [[| | | | | |items]|] eqn:Hj;
    try (unfold parse_success; rewrite Hj; reflexivity).
  apply parse_success_dict. exact Hj.
Qed.

Lemma parse_success_raises (r : response) (e : exn) :
  parse_success r = Raise e ->
  (exists msg, e = APIError msg \/ e = KeyError msg) \/ e = TypeError.
Proof.
  destruct (json r) as [[| | | | | |items]|] eqn:Hj;
    try (unfold parse_success; rewrite Hj; cbn;
         intros H; injection H as <-; first [right; reflexivity
                                            | left; eexists; left; reflexivity]).
  rewrite (parse_success_dict r items Hj).
  destruct (first_missing items) as [key|]; [|discriminate].
  intros H. injection H as <-. left. exists key. right. reflexivity.
Qed.

(** X8: [compress] touches nothing but the list of the calls of
    [requests.post], to which it adds at most one: the streams, the
    standard input, the environment and the configuration store are as
    before.  It never ends the process.  An exception that [requests.post]
    raises and that is no [RequestException] goes through as it is; apart
    from those, the only exceptions of [compress] are [ValueError],
    [AuthenticationError], [APIError], [KeyError] and [TypeError]. *)
Theorem compress_frame (self : TokenOptimizerClient) (text_ : pystr)
    (a : float) (mx mn : option Z) (model : pystr) (w : world) :
  (snd (compress self text_ a mx mn model w) = w
   \/ snd (compress self text_ a mx mn model w)
      = set_sent (sent w ++ [build_request self text_ a mx mn model]) w)
  /\ (forall c, fst (compress self text_ a mx mn model w) <> Exit c)
  /\ (forall e, fst (compress self text_ a mx mn model w) = Raise e ->
        (exists msg, e = ValueError msg \/ e = AuthenticationError msg
                     \/ e = APIError msg \/ e = KeyError msg)
        \/ e = TypeError
        \/ server w (build_request self text_ a mx mn model) = Raised e)
  /\ (forall e, in_unit_interval a = true ->
        server w (build_request self text_ a mx mn model) = Raised e ->
        compress self text_ a mx mn model w
        = (Raise e,
           set_sent (sent w ++ [build_request self text_ a mx mn model]) w)).
Proof.
  rewrite compress_unfold.
  destruct (in_unit_interval a); cbn [fst snd].
  - split; [right; reflexivity|]. split; [apply answer_outcome_no_exit|].
    split; [|intros e _ ->; reflexivity].
    intros e.
    destruct (server w (build_request self text_ a mx mn model)) as [| |d|r|e'];
      cbn [answer_outcome];
      try (intros H; injection H as <-; left; eexists; right; right; left;
           reflexivity).
    + destruct (status_code r =? 401);
        [intros H; injection H as <-; left; eexists; right; left; reflexivity|].
      destruct (status_code r =? 403);
        [intros H; injection H as <-; left; eexists; right; left; reflexivity|].
      destruct ((400 <=? status_code r) && (status_code r <? 600));
        [intros H; injection H as <-; left; eexists; right; right; left;
         reflexivity|].
      intros H. destruct (parse_success_raises r e H) as [[msg [E|E]]|E].
      * left. exists msg. right. right. left. exact E.
      * left. exists msg. right. right. right. exact E.
      * right. left. exact E.
    + intros H. injection H as <-. right. right. reflexivity.
  - split; [left; reflexivity|]. split; [discriminate|].
    split; [|intros e H; discriminate H].
    intros e H. injection H as <-. left. eexists. left. reflexivity.
Qed.


(** ** cli.py: the steps of [cmd_optimize] *)

Lemma only_streams_ret {A : Type} (a : A) : only_streams (ret a).
Proof. intros w. exists (stdout w), (stderr w). destruct w; reflexivity. Qed.

Lemma only_streams_lift {A : Type} (r : result A) : only_streams (lift r).
Proof. intros w. exists (stdout w), (stderr w). destruct w; reflexivity. Qed.

Lemma only_streams_write_stdout (s : pystr) : only_streams (write_stdout s).
Proof.
  intros w. unfold write_stdout.
  destruct (encodable s);
    [exists (stdout w ++ s), (stderr w) | exists (stdout w), (stderr w)];
    destruct w; reflexivity.
Qed.

Lemma only_streams_write_stderr (s : pystr) : only_streams (write_stderr s).
Proof. intros w. exists (stdout w), (stderr w ++ s). destruct w; reflexivity. Qed.

Lemma only_streams_error {A : Type} (msg : pystr) : only_streams (@error A msg).
Proof.
  intros w. rewrite error_run.
  exists (stdout w), (stderr w ++ (lit "error: " ++ msg) ++ nl).
  destruct w; reflexivity.
Qed.

Lemma only_streams_bind {A B : Type} (m : M A) (k : A -> M B) :
  only_streams m -> (forall a, only_streams (k a)) -> only_streams (bind m k).
Proof.
  intros Hm Hk w. unfold bind. destruct (Hm w) as (o1 & e1 & E1).
  destruct (m w) as [[a|e|c] w1]; simpl in E1; subst w1;
    try (exists o1, e1; reflexivity).
  destruct (Hk a (set_stderr e1 (set_stdout o1 w))) as (o2 & e2 & E2).
  exists o2, e2. rewrite E2. reflexivity.
Qed.

Lemma only_streams_render (args : optimize_args) (result : CompressionResult) :
  only_streams (render args result).
Proof.
  unfold render, print_stats. destruct (stats_only args).
  - repeat first
      [ apply only_streams_write_stdout
      | apply only_streams_lift
      | apply only_streams_bind; [|intros ?] ].
  - apply only_streams_bind; [|intros _; apply only_streams_write_stdout].
    destruct (quiet args); [apply only_streams_ret|].
    apply only_streams_bind; [apply only_streams_lift|].
    intros line. apply only_streams_write_stderr.
Qed.

(** [cmd_optimize], block by block. *)
Lemma cmd_optimize_steps (args : optimize_args) :
  cmd_optimize args =
  (k <- load_api_key ;;
   (if negb (truthy_opt k)
    then error (lit "No API key configured. Run 'tokenoptimizer auth set' or set "
                ++ ENV_VAR_NAME)
    else ret tt) ;;;
   txt <- read_input args ;;
   (if negb (truthy (strip txt)) then error (lit "Input text is empty") else ret tt) ;;;
   result <- try_except
               (call_of args (match k with Some s => s | None => [] end) txt)
               handlers ;;
   render args result ;;;
   ret 0).
Proof. reflexivity. Qed.

(** What [cmd_optimize] does once it has a key and a text that is not
    blank: the call decides, an exception with an [except] clause becomes a
    fatal error, any other goes through. *)
Lemma cmd_optimize_with_text (args : optimize_args) (w w1 : world) (k txt : pystr) :
  load_api_key w = (Ret (Some k), w) -> truthy k = true ->
  read_input args w = (Ret txt, w1) -> truthy (strip txt) = true ->
  cmd_optimize args w =
  match call_of args k txt w1 with
  | (Ret result, w2) => (render args result ;;; ret 0) w2
  | (Raise (AuthenticationError msg), w2) =>
      error (lit "Authentication failed: " ++ msg) w2
  | (Raise (APIError msg), w2) => error msg w2
  | (Raise (ValueError msg), w2)
  | (Raise (UnicodeDecodeError msg), w2)
  | (Raise (UnicodeEncodeError msg), w2) => error msg w2
  | (Raise e, w2) => (Raise e, w2)
  | (Exit c, w2) => (Exit c, w2)
  end.
Proof.
  intros Hload Hk Hin Htxt. rewrite cmd_optimize_steps.
  unfold bind at 1. rewrite Hload.
  unfold bind at 1. cbn [truthy_opt]. rewrite Hk. cbn [negb]. unfold ret at 1.
  unfold bind at 1. rewrite Hin.
  unfold bind at 1. rewrite Htxt. cbn [negb]. unfold ret at 1.
  unfold bind at 1. unfold try_except.
  destruct (call_of args k txt w1) as [[result|e|c] w2]; try reflexivity.
  destruct e; reflexivity.
Qed.

(** The input text: the prompt words first, then the file, then the
    standard input when it is no terminal. *)
Lemma read_input_prompt (args : optimize_args) (w : world) :
  prompt args <> [] ->
  read_input args w = (Ret (join (lit " ") (prompt args)), w).
Proof.
  intros H. unfold read_input. destruct (prompt args); [contradiction | reflexivity].
Qed.

Lemma read_input_file (args : optimize_args) (w : world) (path : pystr) :
  prompt args = [] -> file args = Some path -> path <> [] ->
  read_input args w =
  match input_files w path with
  | FileText s => (Ret s, w)
  | FileNotFound => error (lit "File not found: " ++ path) w
  | FileIOError e => error (lit "Failed to read file: " ++ e) w
  | FileUndecodable reason => (Raise (UnicodeDecodeError reason), w)
  end.
Proof.
  intros Hp Hf Hne. unfold read_input. rewrite Hp, Hf.
  cbn [truthy_opt]. rewrite (truthy_cons path Hne).
  unfold bind, open_read. destruct (input_files w path); reflexivity.
Qed.

Lemma read_input_stdin (args : optimize_args) (w : world) :
  prompt args = [] -> truthy_opt (file args) = false ->
  read_input args w =
  if stdin_isatty w
  then error (lit "No input provided. Use --prompt, --file, or pipe via stdin") w
  else (Ret (stdin w), set_stdin [] w).
Proof.
  intros Hp Hf. unfold read_input. rewrite Hp, Hf.
  unfold bind, isatty. destruct (stdin_isatty w); reflexivity.
Qed.

(** A fatal error while the text is gathered or checked ends [cmd_optimize]
    there. *)
Lemma cmd_optimize_input_error (args : optimize_args) (w w1 : world) (k : pystr) (c : Z) :
  load_api_key w = (Ret (Some k), w) -> truthy k = true ->
  read_input args w = (Exit c, w1) ->
  cmd_optimize args w = (Exit c, w1).
Proof.
  intros Hload Hk Hin. rewrite cmd_optimize_steps.
  unfold bind at 1. rewrite Hload.
  unfold bind at 1. cbn [truthy_opt]. rewrite Hk. cbn [negb]. unfold ret at 1.
  unfold bind at 1. rewrite Hin. reflexivity.
Qed.

Lemma cmd_optimize_blank_text (args : optimize_args) (w w1 : world) (k txt : pystr) :
  load_api_key w = (Ret (Some k), w) -> truthy k = true ->
  read_input args w = (Ret txt, w1) -> strip txt = [] ->
  cmd_optimize args w
  = (Exit 1, set_stderr (stderr w1 ++ lit "error: Input text is empty" ++ nl) w1).
Proof.
  intros Hload Hk Hin Htxt. rewrite cmd_optimize_steps.
  unfold bind at 1. rewrite Hload.
  unfold bind at 1. cbn [truthy_opt]. rewrite Hk. cbn [negb]. unfold ret at 1.
  unfold bind at 1. rewrite Hin.
  unfold bind at 1. rewrite Htxt. cbn [truthy negb]. rewrite error_run.
  reflexivity.
Qed.


(** Once the text is there and the aggressiveness is valid, [cmd_optimize]
    sends exactly the request of its call, whatever the answer is. *)
Lemma cmd_optimize_sends (args : optimize_args) (w w1 : world) (k txt : pystr) :
  load_api_key w = (Ret (Some k), w) -> truthy k = true ->
  read_input args w = (Ret txt, w1) -> truthy (strip txt) = true ->
  in_unit_interval (resolved_aggressiveness args) = true ->
  sent (snd (cmd_optimize args w)) = sent w1 ++ [request_of args k txt]
  /\ stdin (snd (cmd_optimize args w)) = stdin w1.
Proof.
  intros Hload Hk Hin Htxt Ha.
  rewrite (cmd_optimize_with_text args w w1 k txt Hload Hk Hin Htxt).
  unfold call_of. rewrite compress_unfold, Ha.
  fold (request_of args k txt).
  destruct (answer_outcome (server w1 (request_of args k txt))) as [result|e|c].
  - destruct (only_streams_bind (render args result) (fun _ => ret 0)
                (only_streams_render args result)
                (fun _ => only_streams_ret 0)
                (set_sent (sent w1 ++ [request_of args k txt]) w1))
      as (out & err & E).
    rewrite E. split; reflexivity.
  - destruct e; split; reflexivity.
  - split; reflexivity.
Qed.

(** X9: with a credential and a valid aggressiveness, the request that
    [cmd_optimize] sends carries the prompt words joined by single spaces
    when there are any, and the file and the standard input are then left
    alone; otherwise the contents of the file given by [--file]; otherwise,
    when the standard input is no terminal, all of the standard input, which
    is then used up. *)
Theorem cmd_optimize_input_precedence (args : optimize_args) (w : world) (k : pystr) :
  load_api_key w = (Ret (Some k), w) -> truthy k = true ->
  in_unit_interval (resolved_aggressiveness args) = true ->
  (prompt args <> [] ->
   truthy (strip (join (lit " ") (prompt args))) = true ->
     sent (snd (cmd_optimize args w))
     = sent w ++ [request_of args k (join (lit " ") (prompt args))]
     /\ stdin (snd (cmd_optimize args w)) = stdin w)
  /\ (forall path s,
      prompt args = [] -> file args = Some path -> path <> [] ->
      input_files w path = FileText s -> truthy (strip s) = true ->
        sent (snd (cmd_optimize args w)) = sent w ++ [request_of args k s]
        /\ stdin (snd (cmd_optimize args w)) = stdin w)
  /\ (prompt args = [] -> truthy_opt (file args) = false ->
      stdin_isatty w = false -> truthy (strip (stdin w)) = true ->
        sent (snd (cmd_optimize args w)) = sent w ++ [request_of args k (stdin w)]
        /\ stdin (snd (cmd_optimize args w)) = []).
Proof.
  intros Hload Hk Ha. split; [|split].
  - intros Hp Htxt.
    exact (cmd_optimize_sends args w w k _ Hload Hk (read_input_prompt args w Hp)
             Htxt Ha).
  - intros path s Hp Hf Hne Hfile Htxt.
    assert (Hin : read_input args w = (Ret s, w)).
    { rewrite (read_input_file args w path Hp Hf Hne), Hfile. reflexivity. }
    exact (cmd_optimize_sends args w w k s Hload Hk Hin Htxt Ha).
  - intros Hp Hf Htty Htxt.
    assert (Hin : read_input args w = (Ret (stdin w), set_stdin [] w)).
    { rewrite (read_input_stdin args w Hp Hf), Htty. reflexivity. }
    exact (cmd_optimize_sends args w _ k _ Hload Hk Hin Htxt Ha).
Qed.

(** X10: with a credential, [cmd_optimize] fails before any request is sent
    when the input is blank ("Input text is empty"), when the file of
    [--file] does not exist ("File not found: <path>") or cannot be read
    ("Failed to read file: <detail>"), and when nothing is given on a
    terminal ("No input provided. ..."): it exits with code 1 after that one
    line on standard error, and the rest of the world is as it was. *)
Theorem cmd_optimize_input_failures (args : optimize_args) (w : world) (k : pystr) :
  load_api_key w = (Ret (Some k), w) -> truthy k = true ->
  (prompt args <> [] -> strip (join (lit " ") (prompt args)) = [] ->
     cmd_optimize args w
     = (Exit 1, set_stderr (stderr w ++ lit "error: Input text is empty" ++ nl) w))
  /\ (forall path,
      prompt args = [] -> file args = Some path -> path <> [] ->
      input_files w path = FileNotFound ->
        cmd_optimize args w
        = (Exit 1,
           set_stderr (stderr w ++ (lit "error: File not found: " ++ path) ++ nl) w))
  /\ (forall path detail,
      prompt args = [] -> file args = Some path -> path <> [] ->
      input_files w path = FileIOError detail ->
        cmd_optimize args w
        = (Exit 1,
           set_stderr (stderr w ++ (lit "error: Failed to read file: " ++ detail)
                       ++ nl) w))
  /\ (prompt args = [] -> truthy_opt (file args) = false -> stdin_isatty w = true ->
        cmd_optimize args w
        = (Exit 1,
           set_stderr
             (stderr w
              ++ lit "error: No input provided. Use --prompt, --file, or pipe via stdin"
              ++ nl) w)).
Proof.
  intros Hload Hk. split; [|split; [|split]].
  - intros Hp Htxt.
    exact (cmd_optimize_blank_text args w w k _ Hload Hk
             (read_input_prompt args w Hp) Htxt).
  - intros path Hp Hf Hne Hfile.
    apply (cmd_optimize_input_error args w _ k 1 Hload Hk).
    rewrite (read_input_file args w path Hp Hf Hne), Hfile, error_run.
    reflexivity.
  - intros path detail Hp Hf Hne Hfile.
    apply (cmd_optimize_input_error args w _ k 1 Hload Hk).
    rewrite (read_input_file args w path Hp Hf Hne), Hfile, error_run.
    reflexivity.
  - intros Hp Hf Htty.
    apply (cmd_optimize_input_error args w _ k 1 Hload Hk).
    rewrite (read_input_stdin args w Hp Hf), Htty, error_run. reflexivity.
Qed.

(** The streams after a call of [compress] are the streams before it. *)
Lemma call_of_streams (args : optimize_args) (k txt : pystr) (w : world) :
  stdout (snd (call_of args k txt w)) = stdout w
  /\ stderr (snd (call_of args k txt w)) = stderr w.
Proof.
  unfold call_of. rewrite compress_unfold.
  destruct (in_unit_interval _); split; reflexivity.
Qed.

(** Gathering the input text writes to neither stream. *)
Lemma read_input_returns (args : optimize_args) (w w1 : world) (txt : pystr) :
  read_input args w = (Ret txt, w1) ->
  stdout w1 = stdout w /\ stderr w1 = stderr w.
Proof.
  unfold read_input. destruct (prompt args) as [|p ps].
  - destruct (truthy_opt (file args)).
    + unfold bind, open_read.
      destruct (input_files w _); intros H; try discriminate H.
      injection H as _ <-. split; reflexivity.
    + unfold bind, isatty. destruct (stdin_isatty w); cbn [negb];
        intros H; try discriminate H.
      injection H as _ <-. split; reflexivity.
  - intros H. injection H as _ <-. split; reflexivity.
Qed.

(** X11: in a run of [cmd_optimize] that has a credential and has gathered
    an input text that is not blank, from the prompt words, the file or
    the standard input, an exception of the call of [compress] is turned
    into a fatal error: an authentication error into "error: Authentication
    failed: <message>", an API error or a [ValueError] (the invalid-input
    error, or one of its subclasses that [requests.post] raised) into
    "error: <message>"; that text and a line end are written to standard
    error, the exit code is 1, nothing is on standard output. *)
Theorem cmd_optimize_client_errors (args : optimize_args) (w w1 : world)
    (k txt : pystr) :
  load_api_key w = (Ret (Some k), w) -> truthy k = true ->
  read_input args w = (Ret txt, w1) -> truthy (strip txt) = true ->
  (forall msg,
     fst (call_of args k txt w1) = Raise (AuthenticationError msg) ->
     cmd_optimize args w
     = (Exit 1,
        set_stderr (stderr w ++ (lit "error: Authentication failed: " ++ msg) ++ nl)
          (snd (call_of args k txt w1))))
  /\ (forall msg,
      fst (call_of args k txt w1) = Raise (APIError msg)
      \/ fst (call_of args k txt w1) = Raise (ValueError msg)
      \/ fst (call_of args k txt w1) = Raise (UnicodeEncodeError msg)
      \/ fst (call_of args k txt w1) = Raise (UnicodeDecodeError msg) ->
      cmd_optimize args w
      = (Exit 1,
         set_stderr (stderr w ++ (lit "error: " ++ msg) ++ nl)
           (snd (call_of args k txt w1))))
  /\ stdout (snd (call_of args k txt w1)) = stdout w.
Proof.
  intros Hload Hk Hin Htxt.
  rewrite (cmd_optimize_with_text args w w1 k txt Hload Hk Hin Htxt).
  destruct (read_input_returns args w w1 txt Hin) as [Ro Re].
  destruct (call_of_streams args k txt w1) as [So Se].
  destruct (call_of args k txt w1) as [o w2].
  cbn [fst snd] in *. split; [|split; [|congruence]].
  - intros msg ->. rewrite error_run, Se, Re. reflexivity.
  - intros msg [-> | [-> | [-> | ->]]]; rewrite error_run, Se, Re; reflexivity.
Qed.

(** X12: in a run of [cmd_optimize] that has a credential and has gathered
    an input text that is not blank, an exception of the call of
    [compress] that no [except] clause takes goes through [cmd_optimize] as
    it is: no "error: " line is written, and nothing is printed.
    [KeyError] (a success body that lacks a field) and [TypeError] (a
    success body that is no object) are such exceptions. *)
Theorem cmd_optimize_unhandled (args : optimize_args) (w w1 : world)
    (k txt : pystr) (e : exn) :
  load_api_key w = (Ret (Some k), w) -> truthy k = true ->
  read_input args w = (Ret txt, w1) -> truthy (strip txt) = true ->
  fst (call_of args k txt w1) = Raise e ->
  handlers e = None ->
  cmd_optimize args w = (Raise e, snd (call_of args k txt w1))
  /\ stdout (snd (cmd_optimize args w)) = stdout w
  /\ stderr (snd (cmd_optimize args w)) = stderr w
  /\ handlers TypeError = None
  /\ (forall key, handlers (KeyError key) = None).
Proof.
  intros Hload Hk Hin Htxt Hcall He.
  rewrite (cmd_optimize_with_text args w w1 k txt Hload Hk Hin Htxt).
  destruct (read_input_returns args w w1 txt Hin) as [Ro Re].
  destruct (call_of_streams args k txt w1) as [So Se].
  destruct (call_of args k txt w1) as [o w2].
  cbn [fst snd] in *. subst o.
  destruct e; try discriminate He; cbn [fst snd];
    repeat split; congruence.
Qed.



(** ** cli.py: exit codes *)

Lemma bind_returns {A B : Type} (m : M A) (k : A -> M B) (w w' : world) (b : B) :
  bind m k w = (Ret b, w') ->
  exists a w1, m w = (Ret a, w1) /\ k a w1 = (Ret b, w').
Proof.
  unfold bind. destruct (m w) as [[a|e|c] w1]; try discriminate.
  intros H. exists a, w1. split; [reflexivity | exact H].
Qed.

Lemma bind_ret_returns {A : Type} (m : M A) (c0 : Z) (w w' : world) (c : Z) :
  bind m (fun _ => ret c0) w = (Ret c, w') -> c = c0.
Proof.
  intros H. apply bind_returns in H. destruct H as (a & w1 & _ & H).
  injection H as <- _. reflexivity.
Qed.



(** ** cli.py: fatal errors *)

Lemma line_ends_app (s t : pystr) : line_ends (s ++ t) = (line_ends s + line_ends t)%nat.
Proof. unfold line_ends. rewrite filter_app, length_app. reflexivity. Qed.

Lemma call_of_no_exit (args : optimize_args) (k txt : pystr) (w : world) (c : Z) :
  fst (call_of args k txt w) <> Exit c.
Proof.
  unfold call_of. rewrite compress_unfold.
  destruct (in_unit_interval _); cbn [fst];
    [apply answer_outcome_no_exit | discriminate].
Qed.

(** The three fatal errors of the gathering of the input. *)
Lemma read_input_exit (args : optimize_args) (w w1 : world) (c : Z) :
  read_input args w = (Exit c, w1) ->
  exists msg,
    c = 1 /\ w1 = set_stderr (stderr w ++ (lit "error: " ++ msg) ++ nl) w
    /\ (msg = lit "No input provided. Use --prompt, --file, or pipe via stdin"
        \/ (exists path,
              file args = Some path /\ input_files w path = FileNotFound
              /\ msg = lit "File not found: " ++ path)
        \/ (exists path detail,
              file args = Some path /\ input_files w path = FileIOError detail
              /\ msg = lit "Failed to read file: " ++ detail)).
Proof.
  unfold read_input. destruct (prompt args) as [|p ps]; [|discriminate].
  assert (Hstdin :
            (tty <- isatty ;;
             if negb tty then stdin_read
             else error (lit "No input provided. Use --prompt, --file, or pipe via stdin")) w
            = (Exit c, w1) ->
            exists msg,
              c = 1 /\ w1 = set_stderr (stderr w ++ (lit "error: " ++ msg) ++ nl) w
              /\ (msg = lit "No input provided. Use --prompt, --file, or pipe via stdin"
                  \/ (exists path,
                        file args = Some path /\ input_files w path = FileNotFound
                        /\ msg = lit "File not found: " ++ path)
                  \/ (exists path detail,
                        file args = Some path
                        /\ input_files w path = FileIOError detail
                        /\ msg = lit "Failed to read file: " ++ detail))).
  { unfold bind, isatty. destruct (stdin_isatty w); cbn [negb]; [|discriminate].
    rewrite error_run. intros H. injection H as <- <-.
    exists (lit "No input provided. Use --prompt, --file, or pipe via stdin").
    split; [reflexivity|]. split; [reflexivity|]. left. reflexivity. }
  destruct (file args) as [[|ch path]|] eqn:Hf; cbn [truthy_opt truthy];
    try exact Hstdin.
  unfold bind, open_read.
  destruct (input_files w (ch :: path)) as [t| |detail|reason] eqn:Hfile;
    try discriminate; rewrite error_run; intros H; injection H as <- <-.
  - exists (lit "File not found: " ++ ch :: path).
    split; [reflexivity|]. split; [reflexivity|]. right. left.
    exists (ch :: path). repeat split. exact Hfile.
  - exists (lit "Failed to read file: " ++ detail).
    split; [reflexivity|]. split; [reflexivity|]. right. right.
    exists (ch :: path), detail. repeat split. exact Hfile.
Qed.

(** However [cmd_optimize] ends the process, it does so with code 1, with
    nothing printed, and with one of its fatal messages after "error: ". *)
Lemma cmd_optimize_exit (args : optimize_args) (w w' : world) (c : Z) :
  cmd_optimize args w = (Exit c, w') ->
  c = 1 /\ stdout w' = stdout w
  /\ exists msg,
       fatal_message (InvOptimize args) w msg
       /\ stderr w' = stderr w ++ lit "error: " ++ msg ++ nl.
Proof.
  intros E.
  pose proof (load_api_key_world w) as Hw.
  destruct (load_api_key w) as [[k|e0|c0] w0] eqn:Hl; cbn [snd] in Hw; subst w0;
    try (rewrite cmd_optimize_steps in E; unfold bind at 1 in E;
         rewrite Hl in E; discriminate E);
    try (exfalso; apply (load_api_key_no_exit w c0); rewrite Hl; reflexivity).
  destruct (truthy_opt k) eqn:Hk.
  - destruct k as [k|]; [|discriminate Hk]. cbn [truthy_opt] in Hk.
    destruct (read_input args w) as [[txt|e|c1] w1] eqn:Hin.
    + destruct (read_input_returns args w w1 txt Hin) as [Ro Re].
      destruct (truthy (strip txt)) eqn:Ht.
      * rewrite (cmd_optimize_with_text args w w1 k txt Hl Hk Hin Ht) in E.
        destruct (call_of_streams args k txt w1) as [So Se].
        pose proof (call_of_no_exit args k txt w1) as Hne.
        destruct (call_of args k txt w1) as [[r|e|c2] w2] eqn:Hc;
          cbn [fst snd] in *.
        -- exfalso.
           apply (no_exit_bind (render args r) (fun _ => ret 0)
                    (no_exit_render args r) (fun _ => no_exit_ret 0) w2 c).
           rewrite E. reflexivity.
        -- destruct e; try discriminate E; rewrite error_run in E;
             injection E as <- <-;
             (split; [reflexivity|]); (split; [cbn; congruence|]);
             eexists;
             (split;
              [ cbn [fatal_message]; do 5 right;
                exists k, txt, w1; eexists;
                split; [exact Hl|]; split; [exact Hin|];
                split; [rewrite Hc; reflexivity | cbn; reflexivity]
              | cbn [stderr set_stderr]; rewrite Se, Re, <- ?app_assoc;
                reflexivity ]).
        -- exfalso. exact (Hne c2 eq_refl).
      * assert (Hs : strip txt = []) by (destruct (strip txt); [reflexivity | discriminate Ht]).
        rewrite (cmd_optimize_blank_text args w w1 k txt Hl Hk Hin Hs) in E.
        injection E as <- <-.
        split; [reflexivity|]. split; [exact Ro|].
        eexists. split; [cbn [fatal_message]; right; right; left; reflexivity|].
        cbn [stderr set_stderr]. rewrite Re. reflexivity.
    + rewrite cmd_optimize_steps in E. unfold bind at 1 in E. rewrite Hl in E.
      unfold bind at 1 in E. cbn [truthy_opt] in E. rewrite Hk in E.
      cbn [negb] in E. unfold ret at 1 in E. unfold bind at 1 in E.
      rewrite Hin in E. discriminate E.
    + rewrite (cmd_optimize_input_error args w w1 k c1 Hl Hk Hin) in E.
      injection E as <- <-.
      destruct (read_input_exit args w w1 c1 Hin) as (msg & -> & -> & Hmsg).
      split; [reflexivity|]. split; [reflexivity|].
      exists msg. split.
      * cbn [fatal_message].
        destruct Hmsg as [H | [H | H]];
          [ right; left; exact H
          | right; right; right; left; exact H
          | right; right; right; right; left; exact H ].
      * cbn [stderr set_stderr]. rewrite <- ?app_assoc. reflexivity.
  - rewrite (cmd_optimize_no_key args w k Hl Hk) in E. injection E as <- <-.
    split; [reflexivity|]. split; [reflexivity|].
    eexists. split; [cbn [fatal_message]; left; reflexivity|].
    reflexivity.
Qed.

(** What follows the emptiness test in [auth set] never ends the process. *)
Lemma auth_set_save_no_exit (k : pystr) :
  no_exit (save_api_key k ;;;
           path <- get_config_path ;;
           eprint (lit "API key saved to " ++ path) ;;;
           ret 0).
Proof.
  apply no_exit_bind; [apply no_exit_save_api_key|]. intros _.
  apply no_exit_bind; [intros w c; discriminate|]. intros path.
  apply no_exit_bind; [apply no_exit_write_stderr|]. intros _.
  apply no_exit_ret.
Qed.

(** [cmd_auth] ends the process in one way only: [auth set] without a
    usable [--key] stops at a blank line typed at its prompt, before
    anything is saved. *)
Lemma cmd_auth_exit (action : auth_action) (w w' : world) (c : Z) :
  cmd_auth action w = (Exit c, w') ->
  c = 1 /\ stdout w' = stdout w /\ config_dir w' = config_dir w
  /\ (exists key, action = AuthSet key /\ truthy_opt key = false)
  /\ stderr w'
     = stderr w ++ lit "Enter your API key: "
       ++ lit "error: API key cannot be empty" ++ nl.
Proof.
  destruct action as [key| | |].
  - unfold cmd_auth. destruct (truthy_opt key) eqn:Hk.
    + destruct key as [k|]; [|discriminate Hk]. cbn [truthy_opt] in Hk.
      unfold bind at 1. unfold ret at 1. unfold bind at 1. rewrite Hk.
      cbn [negb]. unfold ret at 1. intros E. exfalso.
      apply (auth_set_save_no_exit k w c). rewrite E. reflexivity.
    + unfold bind at 1. unfold bind at 1. unfold write_stderr at 1.
      unfold bind at 1. unfold input.
      cbn [stdin set_stderr].
      destruct (stdin w) as [|ch rest] eqn:Hs; [discriminate|].
      destruct (split_line (ch :: rest)) as [line rest'].
      unfold ret at 1. unfold bind at 1.
      destruct (truthy (strip line)) eqn:Ht; cbn [negb].
      * unfold ret at 1. intros E. exfalso.
        apply (auth_set_save_no_exit (strip line)
                 (set_stdin rest' (set_stderr (stderr w ++ lit "Enter your API key: ") w))
                 c).
        rewrite E. reflexivity.
      * rewrite error_run. intros E. injection E as <- <-.
        split; [reflexivity|]. split; [reflexivity|]. split; [reflexivity|].
        split; [exists key; split; [reflexivity | exact Hk]|].
        cbn [stderr set_stderr set_stdin]. rewrite <- !app_assoc. reflexivity.
  - intros E. exfalso.
    assert (Hn : no_exit (cmd_auth AuthShow)).
    { unfold cmd_auth.
      apply no_exit_bind; [apply no_exit_load_api_key|]. intros k.
      apply no_exit_bind; [|intros _; apply no_exit_ret].
      apply no_exit_if;
        repeat first
          [ apply no_exit_write_stdout
          | apply no_exit_bind; [|intros ?]
          | intros w0 c0; discriminate ]. }
    apply (Hn w c). rewrite E. reflexivity.
  - intros E. exfalso.
    assert (Hn : no_exit (cmd_auth AuthDelete)).
    { unfold cmd_auth.
      apply no_exit_bind; [apply no_exit_delete_api_key|]. intros d.
      apply no_exit_bind; [|intros _; apply no_exit_ret].
      apply no_exit_if; apply no_exit_write_stderr. }
    apply (Hn w c). rewrite E. reflexivity.
  - intros E. exfalso.
    assert (Hn : no_exit (cmd_auth AuthPath)).
    { unfold cmd_auth.
      apply no_exit_bind; [intros w0 c0; discriminate|]. intros path.
      apply no_exit_bind; [apply no_exit_write_stdout|]. intros _.
      apply no_exit_ret. }
    apply (Hn w c). rewrite E. reflexivity.
Qed.

(** C2 (as amended): when an invocation ends the process through
    [sys.exit], then either [argparse] did it (code 0 after the help or the
    version on standard output, code 2 after the usage text and its error
    on standard error), or the fatal-error helper did: the code is 1,
    nothing is on standard output, and standard error has received
    "error: <message>" and a line end and nothing else, except the prompt
    of [auth set] before it, where the message is one of the fatal
    messages of the invocation.  That text is one line exactly when the
    message holds no line end.  The messages are given for a missing
    credential, an empty input, an invalid aggressiveness, an
    authentication failure, an API failure and a blank key typed at the
    prompt of [auth set].  An [auth] invocation with no sub-action does not
    exit through the helper: it prints the help text to standard output,
    writes nothing to standard error, and returns 1. *)
Theorem fatal_error_behaviour (inv : invocation) (w : world) :
  (forall c w', main inv w = (Exit c, w') ->
     match inv with
     | InvInfo text =>
         c = 0 /\ stdout w' = stdout w ++ text /\ stderr w' = stderr w
     | InvUsageError text =>
         c = 2 /\ stdout w' = stdout w /\ stderr w' = stderr w ++ text
     | _ =>
         c = 1 /\ stdout w' = stdout w
         /\ exists msg,
              fatal_message inv w msg
              /\ stderr w'
                 = stderr w ++ prompt_of inv ++ lit "error: " ++ msg ++ nl
     end)
  /\ (forall msg, line_ends (lit "error: " ++ msg ++ nl) = S (line_ends msg))
  /\ (forall args k, load_api_key w = (Ret k, w) -> truthy_opt k = false ->
        main (InvOptimize args) w
        = (Exit 1,
           set_stderr
             (stderr w
              ++ lit "error: No API key configured. Run 'tokenoptimizer auth set' or set TOKENOPTIMIZER_API_KEY"
              ++ nl) w))
  /\ (forall args k txt w1,
        load_api_key w = (Ret (Some k), w) -> truthy k = true ->
        read_input args w = (Ret txt, w1) ->
        (strip txt = [] ->
           main (InvOptimize args) w
           = (Exit 1,
              set_stderr (stderr w ++ lit "error: Input text is empty" ++ nl) w1))
        /\ (truthy (strip txt) = true ->
            in_unit_interval (resolved_aggressiveness args) = false ->
            main (InvOptimize args) w
            = (Exit 1,
               set_stderr
                 (stderr w ++ lit "error: Aggressiveness must be between 0.0 and 1.0"
                  ++ nl) w1))
        /\ (truthy (strip txt) = true ->
            forall m,
              fst (call_of args k txt w1) = Raise (AuthenticationError m) ->
              main (InvOptimize args) w
              = (Exit 1,
                 set_stderr
                   (stderr w ++ (lit "error: Authentication failed: " ++ m) ++ nl)
                   (snd (call_of args k txt w1))))
        /\ (truthy (strip txt) = true ->
            forall m,
              fst (call_of args k txt w1) = Raise (APIError m) ->
              main (InvOptimize args) w
              = (Exit 1,
                 set_stderr (stderr w ++ (lit "error: " ++ m) ++ nl)
                   (snd (call_of args k txt w1)))))
  /\ (forall key line rest,
        truthy_opt key = false -> stdin w <> [] ->
        split_line (stdin w) = (line, rest) -> strip line = [] ->
        exists w',
          main (InvAuth (Some (AuthSet key))) w = (Exit 1, w')
          /\ config_dir w' = config_dir w /\ stdout w' = stdout w
          /\ stderr w'
             = stderr w ++ lit "Enter your API key: "
               ++ lit "error: API key cannot be empty" ++ nl)
  /\ main (InvAuth None) w
     = (if encodable auth_help
        then (Ret 1, set_stdout (stdout w ++ auth_help) w)
        else (Raise (UnicodeEncodeError (surrogates_not_allowed auth_help)), w))
  /\ (forall text,
        main (InvUsageError text) w = (Exit 2, set_stderr (stderr w ++ text) w)).
Proof.
  split; [|split; [|split; [|split; [|split; [|split]]]]].
  - intros c w' E.
    destruct inv as [[action|]|args|text|text]; cbn [main] in E.
    + destruct (cmd_auth_exit action w w' c E)
        as (Hc & Ho & _ & (key & -> & Hk) & He).
      split; [exact Hc|]. split; [exact Ho|].
      exists (lit "API key cannot be empty").
      split; [reflexivity|].
      cbn [prompt_of]. rewrite Hk. exact He.
    + unfold bind, write_stdout in E.
      destruct (encodable auth_help); discriminate E.
    + destruct (cmd_optimize_exit args w w' c E) as (Hc & Ho & msg & Hm & He).
      split; [exact Hc|]. split; [exact Ho|].
      exists msg. split; [exact Hm | exact He].
    + unfold bind, write_stdout, sys_exit in E.
      destruct (encodable text); [|discriminate E].
      injection E as <- <-. repeat split.
    + unfold bind, write_stderr, sys_exit in E.
      injection E as <- <-. repeat split.
  - intros msg. rewrite !line_ends_app.
    change (line_ends (lit "error: ")) with 0%nat.
    change (line_ends nl) with 1%nat. lia.
  - intros args k Hload Hk. exact (cmd_optimize_no_key args w k Hload Hk).
  - intros args k txt w1 Hload Hk Hin.
    destruct (read_input_returns args w w1 txt Hin) as [Ro Re].
    cbn [main].
    split; [|split; [|split]].
    + intros Hs.
      rewrite (cmd_optimize_blank_text args w w1 k txt Hload Hk Hin Hs), Re.
      reflexivity.
    + intros Ht Ha.
      rewrite (cmd_optimize_with_text args w w1 k txt Hload Hk Hin Ht).
      unfold call_of. rewrite compress_unfold, Ha, error_run, Re.
      reflexivity.
    + intros Ht m Hc.
      rewrite (cmd_optimize_with_text args w w1 k txt Hload Hk Hin Ht).
      destruct (call_of_streams args k txt w1) as [_ Se].
      destruct (call_of args k txt w1) as [o w2]. cbn [fst snd] in *. subst o.
      rewrite error_run, Se, Re. reflexivity.
    + intros Ht m Hc.
      rewrite (cmd_optimize_with_text args w w1 k txt Hload Hk Hin Ht).
      destruct (call_of_streams args k txt w1) as [_ Se].
      destruct (call_of args k txt w1) as [o w2]. cbn [fst snd] in *. subst o.
      rewrite error_run, Se, Re. reflexivity.
  - intros key line rest Hk Hin Hsplit Hline.
    destruct (auth_set_prompt_blank w key line rest Hk Hin Hsplit Hline)
      as (w' & E & Hc & He).
    exists w'. split; [exact E|]. split; [exact Hc|]. split; [|exact He].
    exact (proj1 (proj2 (cmd_auth_exit _ _ _ _ E))).
  - cbn [main]. unfold bind, write_stdout.
    destruct (encodable auth_help); reflexivity.
  - intros text. reflexivity.
Qed.


(** ** cli.py: presets *)

(** X15: a preset flag stands for its level.  [cmd_optimize] with
    [--light], [--moderate] or [--aggressive] does in every world what it
    does with [-a 0.2], [-a 0.5] or [-a 0.8] and no flag, the first flag set
    winning in that order; each of the three levels passes the validation
    of [compress]. *)
Theorem preset_override (args : optimize_args) (w : world) :
  (light args = true ->
     cmd_optimize args w = cmd_optimize (with_level 0.2 args) w)
  /\ (light args = false -> moderate args = true ->
        cmd_optimize args w = cmd_optimize (with_level 0.5 args) w)
  /\ (light args = false -> moderate args = false -> aggressive args = true ->
        cmd_optimize args w = cmd_optimize (with_level 0.8 args) w)
  /\ (light args = false -> moderate args = false -> aggressive args = false ->
        cmd_optimize args w
        = cmd_optimize (with_level (arg_aggressiveness args) args) w)
  /\ in_unit_interval PRESET_light = true
  /\ in_unit_interval PRESET_moderate = true
  /\ in_unit_interval PRESET_aggressive = true.
Proof.
  assert (H : forall a, resolved_aggressiveness args = a ->
                cmd_optimize args w = cmd_optimize (with_level a args) w).
  { intros a Ha. rewrite !cmd_optimize_steps.
    unfold call_of, render, read_input, with_level, resolved_aggressiveness in *.
    cbn [prompt file arg_aggressiveness light moderate aggressive max_tokens
         min_tokens quiet stats_only arg_timeout].
    rewrite Ha. reflexivity. }
  unfold resolved_aggressiveness in H.
  split; [|split; [|split; [|split; [|repeat split]]]].
  - intros L. apply H. rewrite L. reflexivity.
  - intros L Mo. apply H. rewrite L, Mo. reflexivity.
  - intros L Mo Ag. apply H. rewrite L, Mo, Ag. reflexivity.
  - intros L Mo Ag. apply H. rewrite L, Mo, Ag. reflexivity.
Qed.


(** ** cli.py: the [auth] sub-actions together *)

(** An [auth set --key KEY] that returns has saved the trimmed key and
    reported the path. *)
Lemma auth_set_key_returns (w w1 : world) (key : pystr) (c : Z) :
  truthy key = true ->
  cmd_auth (AuthSet (Some key)) w = (Ret c, w1) ->
  c = 0 /\ writable_store w = true /\ encodable (strip key) = true
  /\ w1 = set_stderr (stderr w ++ (lit "API key saved to " ++ CONFIG_FILE w) ++ nl)
            (set_config_dir (DirPresent (RegFile (Text (strip key)) 384)) w).
Proof.
  intros Hk. unfold cmd_auth. cbn [truthy_opt]. rewrite Hk.
  unfold bind at 1. unfold ret at 1.
  unfold bind at 1. rewrite Hk. cbn [negb]. unfold ret at 1.
  intros H. apply bind_returns in H. destruct H as ([] & w2 & Hs & H).
  apply save_api_key_returns in Hs. destruct Hs as (Hw & He & ->).
  unfold bind, get_config_path, eprint, write_stderr, ret in H.
  injection H as <- <-. repeat split; assumption.
Qed.

(** X16: with the environment variable unset, when [auth set --key KEY]
    returns, for a key that is not blank and holds no carriage return, it
    has returned 0 and printed nothing on standard output, the
    configuration file holds the trimmed key, and [auth show] then prints
    the trimmed key masked and names the config file as its source. *)
Theorem auth_set_then_show (w w1 : world) (key : pystr) (c : Z) :
  environ_key w = None ->
  cmd_auth (AuthSet (Some key)) w = (Ret c, w1) ->
  strip key <> [] -> ~ In 13%N (strip key) ->
  c = 0 /\ stdout w1 = stdout w
  /\ config_dir w1 = DirPresent (RegFile (Text (strip key)) 384)
  /\ cmd_auth AuthShow w1
     = (Ret 0,
        set_stdout
          (stdout w1 ++ (lit "API key: " ++ masked (strip key)) ++ nl
           ++ lit "Source: config file" ++ nl) w1).
Proof.
  intros Henv Hset Hne Hcr.
  assert (Hk : truthy key = true).
  { destruct key; [exfalso; apply Hne; reflexivity | reflexivity]. }
  destruct (auth_set_key_returns w w1 key c Hk Hset) as (-> & Hw & He & ->).
  split; [reflexivity|]. split; [reflexivity|]. split; [reflexivity|].
  rewrite (auth_show_key _ (strip key)).
  - rewrite (encodable_masked _ He).
    cbn [environ_key set_stderr set_config_dir]. rewrite Henv. reflexivity.
  - rewrite load_api_key_unfold.
    cbn [environ_key config_dir set_stderr set_config_dir]. rewrite Henv.
    change (owner_can_read 384) with true. cbn iota.
    rewrite strip_universal_newlines_strip, (universal_newlines_no_cr _ Hcr).
    reflexivity.
  - exact Hne.
Qed.

(** [auth delete] in closed form. *)
Lemma auth_delete_run (w : world) :
  cmd_auth AuthDelete w =
  match config_dir w with
  | DirPresent (RegFile _ _) =>
      (Ret 0, set_stderr (stderr w ++ lit "API key deleted" ++ nl)
                (set_config_dir (DirPresent NoEntry) w))
  | DirPresent SubDir => (Raise IsADirectoryError, w)
  | DirUnsearchable | DirUnreachable => (Raise PermissionError, w)
  | _ => (Ret 0, set_stderr (stderr w ++ lit "No stored API key found" ++ nl) w)
  end.
Proof.
  unfold cmd_auth. unfold bind at 1. rewrite delete_api_key_unfold.
  destruct (config_dir w) as [| |[|data mode|]|?| |]; reflexivity.
Qed.

(** X17: [auth delete] says "API key deleted" when a file was there and "No
    stored API key found" when none was, on standard error, and returns 0;
    a second [auth delete] always finds none; and with the environment
    variable unset or empty, [auth show] then reports that no key is
    configured. *)
Theorem auth_delete_then_show (w w1 : world) (c : Z) :
  cmd_auth AuthDelete w = (Ret c, w1) ->
  c = 0 /\ stdout w1 = stdout w
  /\ ((exists data mode, config_dir w = DirPresent (RegFile data mode))
      /\ stderr w1 = stderr w ++ lit "API key deleted" ++ nl
      \/ fst (config_exists w) = Ret false
         /\ stderr w1 = stderr w ++ lit "No stored API key found" ++ nl)
  /\ cmd_auth AuthDelete w1
     = (Ret 0, set_stderr (stderr w1 ++ lit "No stored API key found" ++ nl) w1)
  /\ (truthy_opt (environ_key w) = false ->
      cmd_auth AuthShow w1
      = (Ret 0,
         set_stdout
           (stdout w1 ++ lit "No API key configured" ++ nl
            ++ lit "Set one with: tokenoptimizer auth set" ++ nl
            ++ lit "Or set TOKENOPTIMIZER_API_KEY environment variable" ++ nl) w1)).
Proof.
  rewrite auth_delete_run. unfold config_exists. cbn [fst].
  destruct (config_dir w) as [| |[|data mode|]|?| |] eqn:D; intros H;
    try discriminate H; injection H as <- <-;
    (split; [reflexivity|]); (split; [reflexivity|]);
    (split; [first [ left; split; [eexists; eexists; reflexivity | reflexivity]
                   | right; split; reflexivity ]|]);
    (split; [rewrite auth_delete_run;
             cbn [config_dir set_stderr set_config_dir]; try rewrite D;
             reflexivity|]);
    intros Henv;
    apply (auth_show_no_key _ None); try reflexivity;
    rewrite load_api_key_unfold;
    cbn [config_dir environ_key set_stderr set_config_dir]; try rewrite D;
    destruct (environ_key w) as [[|? ?]|]; try discriminate Henv; reflexivity.
Qed.

(** Translating the line ends of a blank text leaves it blank. *)
Lemma universal_newlines_blank (n : nat) :
  forall s, (List.length s <= n)%nat -> forallb isspace s = true ->
  forallb isspace (universal_newlines s) = true.
Proof.
  induction n as [|n IH]; intros s Hlen Hs.
  - destruct s; [reflexivity | simpl in Hlen; lia].
  - destruct s as [|c rest]; [reflexivity|].
    simpl in Hlen. cbn [forallb] in Hs. apply andb_prop in Hs.
    destruct Hs as [Hc Hrest].
    destruct (N.eq_dec c 13) as [Ec|Ec].
    + subst c. destruct rest as [|e rest'].
      * reflexivity.
      * cbn [forallb] in Hrest. apply andb_prop in Hrest.
        destruct Hrest as [He Hrest'].
        destruct (N.eq_dec e 10) as [Ee|Ee].
        -- subst e. rewrite universal_newlines_cr_lf. cbn [forallb].
           rewrite isspace_lf. apply IH; [simpl in Hlen; lia | exact Hrest'].
        -- rewrite universal_newlines_cr by exact Ee. cbn [forallb].
           rewrite isspace_lf. apply IH; [simpl in Hlen |- *; lia|].
           cbn [forallb]. rewrite He. exact Hrest'.
    + rewrite universal_newlines_other by exact Ec. cbn [forallb].
      rewrite Hc. apply IH; [lia | exact Hrest].
Qed.

(** X18: a configuration file that holds nothing, or whitespace only, is a
    credential that is there and empty: with the environment variable unset
    or empty, [load_api_key] returns the empty string, not the absent value,
    [cmd_optimize] stops with "No API key configured", and [auth show]
    reports that no key is configured. *)
Theorem blank_config_file (w : world) (s : pystr) (args : optimize_args) :
  truthy_opt (environ_key w) = false ->
  stored_text w = Some s -> forallb isspace s = true ->
  load_api_key w = (Ret (Some []), w)
  /\ cmd_optimize args w
     = (Exit 1,
        set_stderr
          (stderr w
           ++ lit "error: No API key configured. Run 'tokenoptimizer auth set' or set TOKENOPTIMIZER_API_KEY"
           ++ nl) w)
  /\ cmd_auth AuthShow w
     = (Ret 0,
        set_stdout
          (stdout w ++ lit "No API key configured" ++ nl
           ++ lit "Set one with: tokenoptimizer auth set" ++ nl
           ++ lit "Or set TOKENOPTIMIZER_API_KEY environment variable" ++ nl) w).
Proof.
  intros Henv Hs Hsp.
  assert (Hload : load_api_key w = (Ret (Some []), w)).
  { rewrite load_api_key_unfold. unfold stored_text in Hs.
    destruct (environ_key w) as [[|? ?]|]; try discriminate Henv;
      destruct (config_dir w) as [| |[|[t|?] mode|]|?| |]; try discriminate Hs;
      destruct (owner_can_read mode); try discriminate Hs;
      injection Hs as ->;
      rewrite (strip_all_space _
                 (universal_newlines_blank _ s (Nat.le_refl _) Hsp));
      reflexivity. }
  split; [exact Hload|]. split.
  - apply (cmd_optimize_no_key args w (Some [])); [exact Hload | reflexivity].
  - apply (auth_show_no_key w (Some [])); [exact Hload | reflexivity].
Qed.

(** X19: what [auth set --key] with a blank key leaves behind: when the
    command returns, it has returned 0 and left an empty configuration
    file, and with the environment variable unset the next [cmd_optimize]
    stops with "No API key configured", the credential that
    [load_api_key] gives being the empty string. *)
Theorem blank_key_then_optimize (w w1 : world) (key : pystr)
    (args : optimize_args) (c : Z) :
  environ_key w = None ->
  key <> [] -> strip key = [] ->
  cmd_auth (AuthSet (Some key)) w = (Ret c, w1) ->
  c = 0
  /\ config_dir w1 = DirPresent (RegFile (Text []) 384)
  /\ fst (cmd_optimize args w1) = Exit 1
  /\ stderr (snd (cmd_optimize args w1))
     = stderr w1
       ++ lit "error: No API key configured. Run 'tokenoptimizer auth set' or set TOKENOPTIMIZER_API_KEY"
       ++ nl
  /\ fst (load_api_key w1) = Ret (Some []).
Proof.
  intros Henv Hne Hblank Hset.
  destruct (auth_set_key_returns w w1 key c (truthy_cons key Hne) Hset)
    as (-> & Hw & He & Hw1).
  rewrite Hblank in Hw1.
  assert (Hload : load_api_key w1 = (Ret (Some []), w1)).
  { rewrite load_api_key_unfold. subst w1.
    cbn [environ_key config_dir set_stderr set_config_dir]. rewrite Henv.
    reflexivity. }
  rewrite (cmd_optimize_no_key args w1 (Some []) Hload eq_refl), Hload.
  split; [reflexivity|]. split; [subst w1; reflexivity|].
  repeat split.
Qed.


(** ** cli.py: what touches the configuration store *)

Lemma keeps_store_bind {A B : Type} (m : M A) (k : A -> M B) :
  keeps_store m -> (forall a, keeps_store (k a)) -> keeps_store (bind m k).
Proof.
  intros Hm Hk w. unfold bind. specialize (Hm w).
  destruct (m w) as [[a|e|c] w1]; cbn [snd] in *; try exact Hm.
  destruct (Hk a w1) as [Hc He]. destruct Hm as [Hc1 He1].
  split; congruence.
Qed.

Lemma keeps_store_only_streams {A : Type} (m : M A) :
  only_streams m -> keeps_store m.
Proof.
  intros H w. destruct (H w) as (out & err & E). rewrite E. split; reflexivity.
Qed.

Lemma keeps_store_try_except {A : Type} (m : M A) (handler : exn -> option (M A)) :
  keeps_store m -> (forall e k, handler e = Some k -> keeps_store k) ->
  keeps_store (try_except m handler).
Proof.
  intros Hm Hh w. unfold try_except. specialize (Hm w).
  destruct (m w) as [[a|e|c] w1]; cbn [snd] in *; try exact Hm.
  destruct (handler e) as [k|] eqn:Ek; [|exact Hm].
  destruct (Hh e k Ek w1) as [Hc He]. destruct Hm as [Hc1 He1].
  split; congruence.
Qed.

Lemma keeps_store_read_input (args : optimize_args) : keeps_store (read_input args).
Proof.
  intros w. unfold read_input.
  destruct (prompt args); [|split; reflexivity].
  destruct (truthy_opt (file args)).
  - unfold bind, open_read.
    destruct (input_files w _); split; reflexivity.
  - unfold bind, isatty. destruct (stdin_isatty w); split; reflexivity.
Qed.

Lemma keeps_store_call_of (args : optimize_args) (k txt : pystr) :
  keeps_store (call_of args k txt).
Proof.
  intros w. unfold call_of. rewrite compress_unfold.
  destruct (in_unit_interval _); split; reflexivity.
Qed.

Lemma keeps_store_cmd_optimize (args : optimize_args) : keeps_store (cmd_optimize args).
Proof.
  rewrite cmd_optimize_steps.
  apply keeps_store_bind.
  { intros w. rewrite load_api_key_world. split; reflexivity. }
  intros k. apply keeps_store_bind.
  { destruct (negb (truthy_opt k)); apply keeps_store_only_streams;
      [apply only_streams_error | apply only_streams_ret]. }
  intros _. apply keeps_store_bind; [apply keeps_store_read_input|].
  intros txt. apply keeps_store_bind.
  { destruct (negb (truthy (strip txt))); apply keeps_store_only_streams;
      [apply only_streams_error | apply only_streams_ret]. }
  intros _. apply keeps_store_bind.
  { apply keeps_store_try_except; [apply keeps_store_call_of|].
    intros e h Hh. apply keeps_store_only_streams.
    destruct e; try discriminate Hh; injection Hh as <-; apply only_streams_error. }
  intros result. apply keeps_store_only_streams.
  apply only_streams_bind; [apply only_streams_render|].
  intros _. apply only_streams_ret.
Qed.

Lemma keeps_environ_bind {A B : Type} (m : M A) (k : A -> M B) :
  keeps_environ m -> (forall a, keeps_environ (k a)) -> keeps_environ (bind m k).
Proof.
  intros Hm Hk w. unfold bind. specialize (Hm w).
  destruct (m w) as [[a|e|c] w1]; cbn [snd] in *; try exact Hm.
  rewrite (Hk a w1). exact Hm.
Qed.

Lemma keeps_environ_store {A : Type} (m : M A) : keeps_store m -> keeps_environ m.
Proof. intros H w. exact (proj2 (H w)). Qed.

Lemma keeps_environ_save_api_key (k : pystr) : keeps_environ (save_api_key k).
Proof.
  intros w. unfold save_api_key, bind, ensure_config_dir, write_text, chmod.
  destruct (config_dir w) as [| |[|data mode|]|?| |] eqn:D; simpl;
    try rewrite D; simpl;
    try destruct (owner_can_write mode); simpl;
    try destruct (encodable (strip k)); reflexivity.
Qed.

Lemma keeps_store_input : keeps_store input.
Proof.
  intros w. unfold input. destruct (stdin w); [split; reflexivity|].
  destruct (split_line _); split; reflexivity.
Qed.

Lemma keeps_store_load_api_key : keeps_store load_api_key.
Proof. intros w. rewrite load_api_key_world. split; reflexivity. Qed.

Lemma keeps_store_get_config_path : keeps_store get_config_path.
Proof. intros w. split; reflexivity. Qed.

Lemma keeps_store_environ_has : keeps_store environ_has.
Proof. intros w. split; reflexivity. Qed.

Lemma keeps_store_auth_show : keeps_store (cmd_auth AuthShow).
Proof.
  unfold cmd_auth.
  apply keeps_store_bind; [apply keeps_store_load_api_key|]. intros k.
  apply keeps_store_bind;
    [|intros _; apply keeps_store_only_streams, only_streams_ret].
  destruct (truthy_opt k).
  - apply keeps_store_bind;
      [apply keeps_store_only_streams, only_streams_write_stdout|]. intros _.
    apply keeps_store_bind; [apply keeps_store_environ_has|]. intros from_env.
    apply keeps_store_only_streams, only_streams_write_stdout.
  - repeat (apply keeps_store_bind;
              [apply keeps_store_only_streams, only_streams_write_stdout|];
            intros _).
    apply keeps_store_only_streams, only_streams_write_stdout.
Qed.

Lemma keeps_environ_auth_set (key : option pystr) :
  keeps_environ (cmd_auth (AuthSet key)).
Proof.
  unfold cmd_auth.
  apply keeps_environ_bind.
  { destruct (truthy_opt key);
      [apply keeps_environ_store, keeps_store_only_streams, only_streams_ret|].
    apply keeps_environ_bind;
      [apply keeps_environ_store, keeps_store_only_streams,
         only_streams_write_stderr|].
    intros _. apply keeps_environ_bind;
      [apply keeps_environ_store, keeps_store_input|].
    intros line. apply keeps_environ_store, keeps_store_only_streams,
      only_streams_ret. }
  intros k. apply keeps_environ_bind.
  { destruct (negb (truthy k));
      apply keeps_environ_store, keeps_store_only_streams;
      [apply only_streams_error | apply only_streams_ret]. }
  intros _. apply keeps_environ_bind; [apply keeps_environ_save_api_key|].
  intros _. apply keeps_environ_bind;
    [apply keeps_environ_store, keeps_store_get_config_path|].
  intros path. apply keeps_environ_bind;
    [apply keeps_environ_store, keeps_store_only_streams,
       only_streams_write_stderr|].
  intros _. apply keeps_environ_store, keeps_store_only_streams, only_streams_ret.
Qed.

(** X20: only [auth set] and [auth delete] can change the configuration
    store: every other invocation, the optimize command with any arguments
    and any answer of the service, [auth show], [auth path] and [auth] alone,
    leaves the configuration directory and file exactly as they were; and no
    invocation changes the environment variable. *)
Theorem main_store_frame (inv : invocation) (w : world) :
  (config_dir (snd (main inv w)) <> config_dir w ->
   (exists key, inv = InvAuth (Some (AuthSet key)))
   \/ inv = InvAuth (Some AuthDelete))
  /\ environ_key (snd (main inv w)) = environ_key w.
Proof.
  assert (Hkeeps : forall m : M Z, keeps_store m ->
            (config_dir (snd (m w)) <> config_dir w ->
             (exists key, inv = InvAuth (Some (AuthSet key)))
             \/ inv = InvAuth (Some AuthDelete))
            /\ environ_key (snd (m w)) = environ_key w).
  { intros m Hm. destruct (Hm w) as [Hc He].
    split; [intros H; exfalso; exact (H Hc) | exact He]. }
  destruct inv as [[[key| | |]|]|args|text|text]; cbn [main].
  - split; [intros _; left; exists key; reflexivity|].
    apply keeps_environ_auth_set.
  - apply Hkeeps, keeps_store_auth_show.
  - split; [intros _; right; reflexivity|].
    rewrite auth_delete_run.
    destruct (config_dir w) as [| |[|data mode|]|?| |]; reflexivity.
  - apply Hkeeps. unfold cmd_auth.
    apply keeps_store_bind; [apply keeps_store_get_config_path|]. intros path.
    apply keeps_store_only_streams.
    apply only_streams_bind; [apply only_streams_write_stdout|].
    intros _. apply only_streams_ret.
  - apply Hkeeps, keeps_store_only_streams.
    apply only_streams_bind; [apply only_streams_write_stdout|].
    intros _. apply only_streams_ret.
  - apply Hkeeps, keeps_store_cmd_optimize.
  - apply Hkeeps, keeps_store_only_streams.
    apply only_streams_bind; [apply only_streams_write_stdout|].
    intros _ w0. exists (stdout w0), (stderr w0). destruct w0; reflexivity.
  - apply Hkeeps, keeps_store_only_streams.
    apply only_streams_bind; [apply only_streams_write_stderr|].
    intros _ w0. exists (stdout w0), (stderr w0). destruct w0; reflexivity.
Qed.

End Rendering.

(** * The properties at concrete inputs *)

(** C1: a 500 answer with [error.message] "overloaded" raises the API error
    "API error (500): overloaded". *)
Lemma compress_status_mapping_witness :
  in_unit_interval 0.5 = true
  /\ server (answering overloaded)
       (build_request sample_client sample_text 0.5 None None DEFAULT_MODEL)
     = Responded overloaded
  /\ fst (compress sample_repr_float sample_repr_str sample_client sample_text
            0.5 None None DEFAULT_MODEL (answering overloaded))
     = Raise (APIError (lit "API error (500): overloaded")).
Proof.
  split; [reflexivity|]. split; [reflexivity|].
  refine (proj1 (proj2 (proj2
            (compress_status_mapping sample_repr_float sample_repr_str
               sample_client sample_text 0.5 None None DEFAULT_MODEL
               (answering overloaded) overloaded eq_refl eq_refl))) _ _ _).
  - discriminate.
  - discriminate.
  - split; [discriminate | reflexivity].
Defined.

(** C1 fails as stated at status 304, which is outside 200 to 299: a 304
    answer with a success body is returned as a result, and a 304 answer
    with an empty body fails in the parsing of the success body, not with
    "API error (304): ...". *)
Lemma compress_accepts_304 :
  status_code not_modified_with_body = 304
  /\ fst (compress sample_repr_float sample_repr_str sample_client sample_text
            0.5 None None DEFAULT_MODEL (answering not_modified_with_body))
     = Ret (mkCompressionResult (PStr (lit "Hi, test.")) (PInt 3) (PInt 8)
              (PFloat 0.42))
  /\ fst (compress sample_repr_float sample_repr_str sample_client sample_text
            0.5 None None DEFAULT_MODEL (answering not_modified_empty))
     = Raise (APIError (lit "Invalid JSON response from API")).
Proof. repeat split. Qed.

(** C2 fails as stated in three places.  For a missing [auth] sub-action
    the process returns 1 with the help text on standard output and nothing
    on standard error.  For an API failure whose message holds line ends,
    here the page of a 502 answer, the text after "error: " is three lines,
    not one.  For arguments that [argparse] refuses, the exit code is 2 and
    the text on standard error is the usage, not a line that begins with
    "error: ". *)
Lemma fatal_error_exceptions :
  main sample_repr_float sample_repr_str sample_format_fixed sample_help
       (InvAuth None) first_run
    = (Ret 1, set_stdout sample_help first_run)
  /\ stderr (set_stdout sample_help first_run) = []
  /\ fst (main sample_repr_float sample_repr_str sample_format_fixed sample_help
            (InvOptimize sample_args) (keyed (answering bad_gateway)))
     = Exit 1
  /\ stderr (snd (main sample_repr_float sample_repr_str sample_format_fixed
                    sample_help (InvOptimize sample_args)
                    (keyed (answering bad_gateway))))
     = lit "error: API error (502): <html>" ++ nl
       ++ lit "<body>Bad Gateway</body>" ++ nl ++ lit "</html>" ++ nl
  /\ line_ends
       (stderr (snd (main sample_repr_float sample_repr_str sample_format_fixed
                       sample_help (InvOptimize sample_args)
                       (keyed (answering bad_gateway)))))
     = 3%nat
  /\ main sample_repr_float sample_repr_str sample_format_fixed sample_help
          (InvUsageError sample_usage_error) first_run
     = (Exit 2, set_stderr sample_usage_error first_run).
Proof. repeat split. Qed.

(** C5 fails as stated where the configuration file exists and cannot be
    read as text, and where the existence test itself fails:
    [load_api_key] raises when a directory stands at the path of the file,
    when the bytes of the file do not decode, and when the configuration
    directory lies below a directory that cannot be searched. *)
Lemma load_api_key_raises :
  load_api_key (with_config SubDir)
    = (Raise IsADirectoryError, with_config SubDir)
  /\ load_api_key (with_config (RegFile (Undecodable invalid_start_byte) 384))
     = (Raise (UnicodeDecodeError invalid_start_byte),
        with_config (RegFile (Undecodable invalid_start_byte) 384))
  /\ load_api_key unsearchable = (Raise PermissionError, unsearchable).
Proof. repeat split. Qed.

(** C7 at the key of the specification: [" abc123 "] is saved and loaded
    back as ["abc123"], in a file of mode [0o600]. *)
Lemma save_then_load_witness :
  environ_key first_run = None
  /\ save_api_key (lit " abc123 ") first_run
     = (Ret tt, with_config (RegFile (Text (lit "abc123")) 384))
  /\ load_api_key (with_config (RegFile (Text (lit "abc123")) 384))
     = (Ret (Some (lit "abc123")), with_config (RegFile (Text (lit "abc123")) 384)).
Proof.
  split; [reflexivity|]. split; [reflexivity|].
  refine (proj1 (proj2
            (save_then_load (lit " abc123 ") first_run
               (with_config (RegFile (Text (lit "abc123")) 384))
               eq_refl eq_refl)) _).
  intros [H|[H|[H|[H|[H|[H|H]]]]]]; try discriminate H. exact H.
Defined.

(** C7 fails as stated for a key with a carriage return inside: the trimmed
    key is the key itself, it is saved as it is, and it is loaded back with
    a line feed in the place of the carriage return. *)
Lemma save_then_load_changes_cr :
  strip key_with_cr = key_with_cr
  /\ save_api_key key_with_cr first_run
     = (Ret tt, with_config (RegFile (Text key_with_cr) 384))
  /\ load_api_key (with_config (RegFile (Text key_with_cr) 384))
     = (Ret (Some [97%N; 10%N; 98%N]), with_config (RegFile (Text key_with_cr) 384)).
Proof. repeat split. Qed.

(** C9 at a concrete world: the variable holds two spaces and the file a
    valid key. *)
Lemma blank_env_key_hides_file_witness :
  environ_key (with_environ (lit "  ") (with_config (RegFile (Text (lit "sk-valid-key")) 384)))
    = Some (lit "  ")
  /\ forallb isspace (lit "  ") = true
  /\ load_api_key
       (with_environ (lit "  ") (with_config (RegFile (Text (lit "sk-valid-key")) 384)))
     = (Ret (Some []),
        with_environ (lit "  ") (with_config (RegFile (Text (lit "sk-valid-key")) 384))).
Proof.
  split; [reflexivity|]. split; [reflexivity|].
  refine (proj1
            (blank_env_key_hides_file sample_repr_float sample_repr_str
               sample_format_fixed
               (with_environ (lit "  ")
                  (with_config (RegFile (Text (lit "sk-valid-key")) 384)))
               (lit "  ") sample_args eq_refl _ eq_refl)).
  discriminate.
Defined.

(** C10 at a call that gives neither limit: both keys are in the body with
    the value [null]. *)
Lemma compress_sends_token_limits_witness :
  in_unit_interval 0.5 = true
  /\ exists req settings,
       sent (snd (compress sample_repr_float sample_repr_str sample_client
                    sample_text 0.5 None None DEFAULT_MODEL first_run))
       = [req]
       /\ dict_get (req_json req) (lit "compression_settings") PNone
          = Some (PDict settings)
       /\ lookup (lit "max_output_tokens") settings = Some PNone
       /\ lookup (lit "min_output_tokens") settings = Some PNone.
Proof.
  split; [reflexivity|].
  destruct (compress_sends_token_limits sample_repr_float sample_repr_str
              sample_json_quote sample_client sample_text 0.5 None None
              DEFAULT_MODEL first_run eq_refl)
    as (req & settings & Hsent & Hget & Hmax & Hmin & _).
  exists req, settings. repeat split; assumption.
Defined.

(** * The further properties at concrete inputs *)

(** What [requests.post] raises for [--timeout 0]. *)
Lemma compress_timeout_zero :
  compress sample_repr_float sample_repr_str (mkClient (lit "sk-test") 0)
    sample_text 0.5 None None DEFAULT_MODEL (failing (Raised (ValueError timeout_refused)))
  = (Raise (ValueError timeout_refused),
     set_sent [build_request (mkClient (lit "sk-test") 0) sample_text 0.5 None None
                 DEFAULT_MODEL]
       (failing (Raised (ValueError timeout_refused)))).
Proof. reflexivity. Qed.

(** [save_api_key] where a file stands in the way of the configuration
    directory: [mkdir] raises, and nothing is written; and where the
    directory is there but cannot be searched: [mkdir] passes and the
    write raises. *)
Lemma save_api_key_uncreatable :
  save_api_key (lit "abc123")
    (set_config_dir (DirUncreatable NotADirectoryError) first_run)
  = (Raise NotADirectoryError,
     set_config_dir (DirUncreatable NotADirectoryError) first_run)
  /\ ensure_config_dir unsearchable = (Ret tt, unsearchable)
  /\ save_api_key (lit "abc123") unsearchable = (Raise PermissionError, unsearchable).
Proof. repeat split. Qed.


(** X2 at the same store: after the delete nothing is loaded. *)
Lemma load_after_delete_witness :
  delete_api_key (with_config (RegFile (Text (lit "abc123")) 384))
    = (Ret true, with_config NoEntry)
  /\ load_api_key (with_config NoEntry) = (Ret None, with_config NoEntry).
Proof.
  split; [reflexivity|].
  exact (load_after_delete (with_config (RegFile (Text (lit "abc123")) 384))
           (with_config NoEntry) true eq_refl).
Defined.

(** X3 at two keys saved one after the other on a first run. *)
Lemma save_api_key_overwrites_witness :
  save_api_key (lit "first-key") first_run
    = (Ret tt, with_config (RegFile (Text (lit "first-key")) 384))
  /\ encodable (strip (lit " second-key ")) = true
  /\ exists w2,
       save_api_key (lit " second-key ")
         (with_config (RegFile (Text (lit "first-key")) 384)) = (Ret tt, w2)
       /\ save_api_key (lit " second-key ") first_run = (Ret tt, w2)
       /\ config_dir w2
          = DirPresent (RegFile (Text (strip (lit " second-key "))) 384).
Proof.
  split; [reflexivity|]. split; [reflexivity|].
  exact (save_api_key_overwrites (lit "first-key") (lit " second-key ") first_run
           (with_config (RegFile (Text (lit "first-key")) 384)) eq_refl eq_refl).
Defined.

(** X4 at a file with spaces and a line end around the key. *)
Lemma load_api_key_is_trimmed_witness :
  fst (load_api_key (with_config (RegFile (Text (lit "  abc123 " ++ nl)) 384)))
    = Ret (Some (lit "abc123"))
  /\ strip (lit "abc123") = lit "abc123".
Proof.
  split; [reflexivity|].
  exact (proj1 (load_api_key_is_trimmed
                  (with_config (RegFile (Text (lit "  abc123 " ++ nl)) 384))
                  (lit "abc123") eq_refl)).
Defined.

(** X5 at the key of the specification. *)
Lemma save_of_loaded_key_witness :
  environ_key first_run = None
  /\ save_api_key (lit " abc123 ") first_run
     = (Ret tt, with_config (RegFile (Text (lit "abc123")) 384))
  /\ save_api_key (lit "abc123") (with_config (RegFile (Text (lit "abc123")) 384))
     = (Ret tt, with_config (RegFile (Text (lit "abc123")) 384)).
Proof.
  split; [reflexivity|]. split; [reflexivity|].
  refine (proj2 (save_of_loaded_key (lit " abc123 ") (lit "abc123") first_run
                   (with_config (RegFile (Text (lit "abc123")) 384))
                   eq_refl eq_refl _ eq_refl)).
  intros [H|[H|[H|[H|[H|[H|H]]]]]]; try discriminate H. exact H.
Defined.

(** X6 at a connection that fails. *)
Lemma compress_transport_errors_witness :
  in_unit_interval 0.5 = true
  /\ fst (compress sample_repr_float sample_repr_str sample_client sample_text
            0.5 None None DEFAULT_MODEL (failing ConnectionError))
     = Raise (APIError (lit "Failed to connect to API")).
Proof.
  split; [reflexivity|].
  exact (proj1 (proj2 (proj2
           (compress_transport_errors sample_repr_float sample_repr_str
              sample_client sample_text 0.5 None None DEFAULT_MODEL
              (failing ConnectionError) eq_refl))) eq_refl).
Defined.

(** X7 at a 200 answer with the four fields, and at one with none. *)
Lemma compress_success_body_witness :
  in_unit_interval 0.5 = true
  /\ fst (compress sample_repr_float sample_repr_str sample_client sample_text
            0.5 None None DEFAULT_MODEL (answering (success_with success_body)))
     = Ret sample_result
  /\ fst (compress sample_repr_float sample_repr_str sample_client sample_text
            0.5 None None DEFAULT_MODEL (answering empty_object))
     = Raise (KeyError (lit "output")).
Proof.
  split; [reflexivity|]. split.
  - exact (compress_success_body sample_repr_float sample_repr_str sample_client
             sample_text 0.5 None None DEFAULT_MODEL
             (answering (success_with success_body)) (success_with success_body)
             eq_refl eq_refl (or_introl eq_refl)).
  - exact (compress_success_body sample_repr_float sample_repr_str sample_client
             sample_text 0.5 None None DEFAULT_MODEL
             (answering empty_object) empty_object
             eq_refl eq_refl (or_introl eq_refl)).
Defined.

(** X9 at a run with a prompt: the prompt is what is sent. *)
Lemma cmd_optimize_input_precedence_witness :
  load_api_key (keyed first_run) = (Ret (Some sample_key), keyed first_run)
  /\ truthy sample_key = true
  /\ in_unit_interval (resolved_aggressiveness sample_args) = true
  /\ sent (snd (cmd_optimize sample_repr_float sample_repr_str sample_format_fixed
                  sample_args (keyed first_run)))
     = [request_of sample_args sample_key sample_text].
Proof.
  split; [reflexivity|]. split; [reflexivity|]. split; [reflexivity|].
  refine (proj1 (proj1
            (cmd_optimize_input_precedence sample_repr_float sample_repr_str
               sample_format_fixed sample_args (keyed first_run) sample_key
               eq_refl eq_refl eq_refl) _ eq_refl)).
  discriminate.
Defined.

(** X10 at a prompt of one space. *)
Lemma cmd_optimize_input_failures_witness :
  load_api_key (keyed first_run) = (Ret (Some sample_key), keyed first_run)
  /\ truthy sample_key = true
  /\ cmd_optimize sample_repr_float sample_repr_str sample_format_fixed
       blank_args (keyed first_run)
     = (Exit 1, set_stderr (lit "error: Input text is empty" ++ nl) (keyed first_run)).
Proof.
  split; [reflexivity|]. split; [reflexivity|].
  refine (proj1
            (cmd_optimize_input_failures sample_repr_float sample_repr_str
               sample_format_fixed blank_args (keyed first_run) sample_key
               eq_refl eq_refl) _ eq_refl).
  discriminate.
Defined.

(** X11 at a 401 answer, for a text that is piped in. *)
Lemma cmd_optimize_client_errors_witness :
  load_api_key (piped sample_text (keyed (answering unauthorized)))
    = (Ret (Some sample_key), piped sample_text (keyed (answering unauthorized)))
  /\ truthy sample_key = true
  /\ read_input piped_args (piped sample_text (keyed (answering unauthorized)))
     = (Ret sample_text, piped [] (keyed (answering unauthorized)))
  /\ fst (cmd_optimize sample_repr_float sample_repr_str sample_format_fixed
            piped_args (piped sample_text (keyed (answering unauthorized))))
     = Exit 1
  /\ stderr (snd (cmd_optimize sample_repr_float sample_repr_str sample_format_fixed
                    piped_args (piped sample_text (keyed (answering unauthorized)))))
     = lit "error: Authentication failed: Invalid API key" ++ nl.
Proof.
  split; [reflexivity|]. split; [reflexivity|]. split; [reflexivity|].
  rewrite (proj1
             (cmd_optimize_client_errors sample_repr_float sample_repr_str
                sample_format_fixed piped_args
                (piped sample_text (keyed (answering unauthorized)))
                (piped [] (keyed (answering unauthorized)))
                sample_key sample_text eq_refl eq_refl eq_refl eq_refl)
             (lit "Invalid API key") eq_refl).
  split; reflexivity.
Defined.

(** X12 at a 200 answer whose body is the empty object. *)
Lemma cmd_optimize_unhandled_witness :
  load_api_key (keyed (answering empty_object))
    = (Ret (Some sample_key), keyed (answering empty_object))
  /\ read_input sample_args (keyed (answering empty_object))
     = (Ret sample_text, keyed (answering empty_object))
  /\ fst (cmd_optimize sample_repr_float sample_repr_str sample_format_fixed
            sample_args (keyed (answering empty_object)))
     = Raise (KeyError (lit "output"))
  /\ stderr (snd (cmd_optimize sample_repr_float sample_repr_str sample_format_fixed
                    sample_args (keyed (answering empty_object)))) = [].
Proof.
  split; [reflexivity|]. split; [reflexivity|].
  destruct (cmd_optimize_unhandled sample_repr_float sample_repr_str
              sample_format_fixed sample_args (keyed (answering empty_object))
              (keyed (answering empty_object))
              sample_key sample_text (KeyError (lit "output"))
              eq_refl eq_refl eq_refl eq_refl eq_refl eq_refl)
    as (Hrun & _ & Herr & _).
  split; [rewrite Hrun; reflexivity | exact Herr].
Defined.


(** X16 at a first run and the key of the specification. *)
Lemma auth_set_then_show_witness :
  environ_key first_run = None
  /\ cmd_auth (AuthSet (Some (lit " abc123 "))) first_run
     = (Ret 0, after_auth_set (lit "abc123"))
  /\ cmd_auth AuthShow (after_auth_set (lit "abc123"))
     = (Ret 0,
        set_stdout (lit "API key: ******" ++ nl ++ lit "Source: config file" ++ nl)
          (after_auth_set (lit "abc123"))).
Proof.
  split; [reflexivity|]. split; [reflexivity|].
  refine (proj2 (proj2 (proj2
            (auth_set_then_show first_run (after_auth_set (lit "abc123"))
               (lit " abc123 ") 0 eq_refl eq_refl _ _)))).
  - discriminate.
  - intros [H|[H|[H|[H|[H|[H|H]]]]]]; try discriminate H. exact H.
Defined.

(** X17 at a store with a saved key. *)
Lemma auth_delete_then_show_witness :
  cmd_auth AuthDelete (with_config (RegFile (Text (lit "abc123")) 384))
    = (Ret 0, set_stderr (lit "API key deleted" ++ nl) (with_config NoEntry))
  /\ stdout (set_stderr (lit "API key deleted" ++ nl) (with_config NoEntry)) = [].
Proof.
  split; [reflexivity|].
  exact (proj1 (proj2
           (auth_delete_then_show
              (with_config (RegFile (Text (lit "abc123")) 384))
              (set_stderr (lit "API key deleted" ++ nl) (with_config NoEntry))
              0 eq_refl))).
Defined.

(** X18 at a configuration file of two spaces and a line end. *)
Lemma blank_config_file_witness :
  stored_text (with_config (RegFile (Text (lit "  " ++ nl)) 384))
    = Some (lit "  " ++ nl)
  /\ forallb isspace (lit "  " ++ nl) = true
  /\ load_api_key (with_config (RegFile (Text (lit "  " ++ nl)) 384))
     = (Ret (Some []), with_config (RegFile (Text (lit "  " ++ nl)) 384)).
Proof.
  split; [reflexivity|]. split; [reflexivity|].
  exact (proj1
           (blank_config_file sample_repr_float sample_repr_str sample_format_fixed
              (with_config (RegFile (Text (lit "  " ++ nl)) 384))
              (lit "  " ++ nl) sample_args eq_refl eq_refl eq_refl)).
Defined.

(** X19 at a key of three spaces on a first run. *)
Lemma blank_key_then_optimize_witness :
  environ_key first_run = None
  /\ strip (lit "   ") = []
  /\ cmd_auth (AuthSet (Some (lit "   "))) first_run = (Ret 0, after_auth_set [])
  /\ fst (cmd_optimize sample_repr_float sample_repr_str sample_format_fixed
            sample_args (after_auth_set [])) = Exit 1.
Proof.
  split; [reflexivity|]. split; [reflexivity|]. split; [reflexivity|].
  refine (proj1 (proj2 (proj2
            (blank_key_then_optimize sample_repr_float sample_repr_str
               sample_format_fixed first_run (after_auth_set []) (lit "   ")
               sample_args 0 eq_refl _ eq_refl eq_refl)))).
  discriminate.
Defined.
